(** * Sentiment dashboard (app.py): shallow embedding and verified properties

    The program is a Streamlit script.  One run of the script reacts to one
    user interaction: it may reload the dataset, classify the SUMMARY column
    with the VADER analyzer, and then renders the (filtered) table and the
    bar chart of sentiment counts.

    The embedding follows the script top to bottom:
    - Python values held by a DataFrame cell ([pyval]), floats being binary64
      values in the representation of [SpecFloat];
    - exceptions and [try]/[except] as a result type threaded through a state
      monad over the [world] (session state, rendered elements, the
      [st.cache_data] store, and the trace of analyzer invocations);
    - a DataFrame as an ordered association list of named columns;
    - the three external collaborators the script calls (the analyzer, the
      file system and the CSV parser) as section variables. *)

From Stdlib Require Import ZArith Bool List Permutation Sorted.
From Stdlib Require Import Floats.SpecFloat.
From stdpp Require Import base option list sorting strings gmap.

(** ** Python values *)

(** A cell of a DataFrame read by [pd.read_csv], and so an argument of
    [get_sentiment]: a string, a float (missing cells are the float NaN), or
    [None]. *)
Inductive pyval : Type :=
  | PNone
  | PStr (s : string)
  | PFloat (f : spec_float).

#[global] Instance spec_float_eq_dec : EqDecision spec_float.
Proof. solve_decision. Defined.

#[global] Instance pyval_eq_dec : EqDecision pyval.
Proof. solve_decision. Defined.

Definition NaN : pyval := PFloat S754_nan.

(** [bool(x)]: [None], the empty string and the two float zeros are falsy;
    NaN is truthy. *)
Definition py_bool (x : pyval) : bool :=
  match x with
  | PNone => false
  | PStr s => negb (String.eqb s "")
  | PFloat (S754_zero _) => false
  | PFloat _ => true
  end.

(** [not x] *)
Definition py_not (x : pyval) : bool := negb (py_bool x).

(** [pd.isna(x)] on a scalar. *)
Definition pd_isna (x : pyval) : bool :=
  match x with
  | PNone => true
  | PFloat S754_nan => true
  | _ => false
  end.

(** [a >= b] and [a <= b] on floats; both are [False] when a NaN is
    involved. *)
Definition float_ge (a b : spec_float) : bool := SFleb b a.
Definition float_le (a b : spec_float) : bool := SFleb a b.
Definition float_lt (a b : spec_float) : bool := SFltb a b.

(** The literal [0.05]: the binary64 value 0x1.999999999999ap-5. *)
Definition f_0_05 : spec_float := S754_finite false 7205759403792794 (-57).
(** The expression [-0.05]. *)
Definition f_neg_0_05 : spec_float := SFopp f_0_05.
(** The float [0.0]. *)
Definition f_0 : spec_float := S754_zero false.

(** ** Exceptions *)

(** The exceptions of the script, all of them subclasses of [Exception]:
    [FileNotFoundError] is told apart by the loader, [KeyError] is what a
    failed dict or column lookup raises, [OtherError] stands for any other
    class (with the class name kept for the message). *)
Inductive exn : Type :=
  | FileNotFoundError (msg : string)
  | KeyError (key : string)
  | OtherError (cls msg : string).

(** [str(e)], as interpolated by the f-strings of the handlers. *)
Definition exn_str (e : exn) : string :=
  match e with
  | FileNotFoundError msg => msg
  | KeyError key => "'" +:+ key +:+ "'"
  | OtherError _ msg => msg
  end.

Inductive result (A : Type) : Type :=
  | Ret (a : A)
  | Raise (e : exn).
Arguments Ret {A} a.
Arguments Raise {A} e.

#[global] Instance result_bind : MBind result := fun A B k r =>
  match r with
  | Ret a => k a
  | Raise e => Raise e
  end.

(** ** DataFrames *)

(** Columns in their order, each with its cells.  In a frame built by
    [pd.read_csv] all columns have the same length. *)
Definition DataFrame : Type := list (string * list pyval).

Definition df_columns (df : DataFrame) : list string := map fst df.

Fixpoint df_lookup (c : string) (df : DataFrame) : option (list pyval) :=
  match df with
  | [] => None
  | (c', cells) :: df' => if String.eqb c' c then Some cells else df_lookup c df'
  end.

(** [df[c]] *)
Definition df_getitem (df : DataFrame) (c : string) : result (list pyval) :=
  match df_lookup c df with
  | Some cells => Ret cells
  | None => Raise (KeyError c)
  end.

(** [c in df.columns] *)
Definition df_has_column (c : string) (df : DataFrame) : bool :=
  match df_lookup c df with Some _ => true | None => false end.

(** The frame with the column [c] set to [cells]: the column is overwritten
    where it stands, or appended as the last one.  This is what
    [df.loc[:, c] = cells] leaves when pandas accepts the cells. *)
Fixpoint df_setitem (df : DataFrame) (c : string) (cells : list pyval) : DataFrame :=
  match df with
  | [] => [(c, cells)]
  | (c', old) :: df' =>
      if String.eqb c' c then (c', cells) :: df'
      else (c', old) :: df_setitem df' c cells
  end.

(** [df.head(n)] *)
Definition df_head (n : nat) (df : DataFrame) : DataFrame :=
  map (fun col => (fst col, take n (snd col))) df.

(** Selection of the cells under a boolean mask. *)
Fixpoint mask_select {A : Type} (mask : list bool) (cells : list A) : list A :=
  match mask, cells with
  | b :: mask', x :: cells' =>
      if b then x :: mask_select mask' cells' else mask_select mask' cells'
  | _, _ => []
  end.

(** [df[mask]] *)
Definition df_filter (mask : list bool) (df : DataFrame) : DataFrame :=
  map (fun col => (fst col, mask_select mask (snd col))) df.

(** [len(df)] *)
Definition df_len (df : DataFrame) : nat :=
  match df with
  | [] => 0
  | (_, cells) :: _ => length cells
  end.

(** All columns hold one cell per row. *)
Definition df_wf (df : DataFrame) : Prop :=
  Forall (fun col => length (snd col) = df_len df) df.

(** ** The world of one script run *)

(** What the script renders. *)
Inductive element : Type :=
  | st_title (s : string)
  | st_write (s : string)
  | st_subheader (s : string)
  (** [st.subheader(f"{prefix}{v}")] *)
  | st_subheader_f (prefix : string) (v : pyval)
  | st_error (s : string)
  | st_warning (s : string)
  | st_success (s : string)
  | st_dataframe (df : DataFrame)
  (** the bar chart: the rows (category, count) of the plotted frame, NaN
      categories being [None], and the colour of each category *)
  | st_plotly_chart (bars : list (option string * nat)) (colors : list (string * string)).

Record world : Type := World {
  session_state : gmap string DataFrame;
  screen : list element;
  (** the store of [st.cache_data] for [get_sentiment]: argument, returned
      value and the elements the call rendered *)
  cache : list (pyval * (string * list element));
  (** the arguments [analyzer.polarity_scores] was invoked on, oldest first *)
  scored : list pyval
}.

Definition M (A : Type) : Type := world -> result A * world.

Definition ret {A : Type} (a : A) : M A := fun w => (Ret a, w).
Definition raise {A : Type} (e : exn) : M A := fun w => (Raise e, w).
Definition lift {A : Type} (r : result A) : M A := fun w => (r, w).

#[global] Instance M_bind : MBind M := fun A B k m w =>
  match m w with
  | (Ret a, w') => k a w'
  | (Raise e, w') => (Raise e, w')
  end.

(** [try: body  except Exception as e: handler e] *)
Definition try_except {A : Type} (body : M A) (handler : exn -> M A) : M A :=
  fun w =>
    match body w with
    | (Ret a, w') => (Ret a, w')
    | (Raise e, w') => handler e w'
    end.

Definition render (e : element) : M unit :=
  fun w => (Ret tt, World (session_state w) (screen w ++ [e]) (cache w) (scored w)).

Definition set_session (k : string) (df : DataFrame) : M unit :=
  fun w => (Ret tt, World (<[k := df]> (session_state w)) (screen w) (cache w) (scored w)).

(** [st.session_state[k]] *)
Definition get_session (k : string) : M DataFrame :=
  fun w =>
    match session_state w !! k with
    | Some df => (Ret df, w)
    | None => (Raise (KeyError k), w)
    end.

(** [k in st.session_state] *)
Definition in_session (k : string) : M bool :=
  fun w => (Ret (bool_decide (is_Some (session_state w !! k))), w).

(** ** [st.cache_data] *)

Fixpoint cache_lookup (arg : pyval) (c : list (pyval * (string * list element)))
  : option (string * list element) :=
  match c with
  | [] => None
  | (arg', entry) :: c' =>
      if decide (arg' = arg) then Some entry else cache_lookup arg c'
  end.

(** The decorator: a call whose argument is in the store returns the stored
    value and replays the elements the original call rendered, without
    running the function; any other call runs the function and, when it
    returns, stores its value with the elements it rendered. *)
Definition cache_data (f : pyval -> M string) (arg : pyval) : M string :=
  fun w =>
    match cache_lookup arg (cache w) with
    | Some (v, shown) =>
        (Ret v, World (session_state w) (screen w ++ shown) (cache w) (scored w))
    | None =>
        match f arg w with
        | (Ret v, w') =>
            let shown := drop (length (screen w)) (screen w') in
            (Ret v, World (session_state w') (screen w')
                          ((arg, (v, shown)) :: cache w') (scored w'))
        | (Raise e, w') => (Raise e, w')
        end
    end.

(** ** The filter and the aggregate *)

(** Equality of keys in the hash tables behind [unique] and [value_counts]:
    equality of values, all NaN being one key. *)
Definition hash_eqb (a b : pyval) : bool :=
  match a, b with
  | PNone, PNone => true
  | PStr s, PStr t => String.eqb s t
  | PFloat S754_nan, PFloat S754_nan => true
  | PFloat f, PFloat g => SFeqb f g
  | _, _ => false
  end.

(** [series.unique()]: the distinct cells in order of first appearance. *)
Fixpoint uniques (cells : list pyval) : list pyval :=
  match cells with
  | [] => []
  | x :: cells' => x :: filter (fun y => hash_eqb x y = false) (uniques cells')
  end.

(** Elementwise [cell == product] of a column against a scalar: [None] and
    NaN cells compare unequal to everything. *)
Definition series_eq (cell product : pyval) : bool :=
  match cell, product with
  | PStr s, PStr t => String.eqb s t
  | PFloat f, PFloat g => SFeqb f g
  | _, _ => false
  end.

(** [product != s] for a string literal [s]. *)
Definition py_ne_str (product : pyval) (s : string) : bool :=
  match product with
  | PStr p => negb (String.eqb p s)
  | _ => true
  end.

Definition filtered_df (df : DataFrame) (product : pyval) : result DataFrame :=
  if py_ne_str product "All Products" then
    cells ← df_getitem df "PRODUCT";
    Ret (df_filter (map (fun cell => series_eq cell product) cells) df)
  else
    Ret df.

(** Rows of a frame of counts: descending by count. *)
Definition count_desc (a b : pyval * nat) : Prop := (snd b ≤ snd a)%nat.

#[global] Instance count_desc_dec : RelDecision count_desc.
Proof. intros a b. unfold count_desc. apply _. Defined.

(** [series.value_counts().reset_index()] with the columns renamed
    ['Sentiment', 'Count']: missing cells are dropped, every distinct value
    gets the number of its occurrences, most frequent first. *)
Definition value_counts (cells : list pyval) : list (pyval * nat) :=
  let kept := filter (fun x => pd_isna x = false) cells in
  merge_sort count_desc
    (map (fun k => (k, length (filter (fun x => hash_eqb k x = true) kept)))
         (uniques kept)).

Definition sentiment_order : list string := ["Negative"; "Neutral"; "Positive"].

Definition sentiment_colors : list (string * string) :=
  [("Negative", "red"); ("Neutral", "lightgray"); ("Positive", "green")].

(** [d[k]] on the dict of colours. *)
Fixpoint color_of (k : string) (d : list (string * string)) : result string :=
  match d with
  | [] => Raise (KeyError k)
  | (k', v) :: d' => if String.eqb k' k then Ret v else color_of k d'
  end.

(** [s in existing_sentiments], on an array of cells. *)
Definition array_contains (s : string) (cells : list pyval) : bool :=
  existsb (fun cell => series_eq cell (PStr s)) cells.

(** [[s for s in sentiment_order if s in existing_sentiments]] *)
Definition filtered_order (counts : list (pyval * nat)) : list string :=
  let existing_sentiments := uniques (map fst counts) in
  List.filter (fun s => array_contains s existing_sentiments) sentiment_order.

(** [{s: sentiment_colors[s] for s in filtered_order}] *)
Fixpoint filtered_colors (order : list string) : result (list (string * string)) :=
  match order with
  | [] => Ret []
  | s :: order' =>
      c ← color_of s sentiment_colors;
      rest ← filtered_colors order';
      Ret ((s, c) :: rest)
  end.

(** Position of a category in the list of categories. *)
Fixpoint index_of (s : string) (cats : list string) : option nat :=
  match cats with
  | [] => None
  | c :: cats' => if String.eqb c s then Some 0 else S <$> index_of s cats'
  end.

(** [pd.Categorical(values, categories=cats, ordered=True)]: a value that is
    no category becomes NaN. *)
Definition categorical (cats : list string) (v : pyval) : option string :=
  match v with
  | PStr s => if bool_decide (s ∈ cats) then Some s else None
  | _ => None
  end.

(** The order of a categorical column under [sort_values]: by position of
    the category, NaN last. *)
Definition category_le (cats : list string) (a b : option string * nat) : Prop :=
  match fst a ≫= (fun s => index_of s cats), fst b ≫= (fun s => index_of s cats) with
  | Some i, Some j => (i ≤ j)%nat
  | _, None => True
  | None, Some _ => False
  end.

#[global] Instance category_le_dec cats : RelDecision (category_le cats).
Proof.
  intros a b. unfold category_le.
  destruct (fst a ≫= _), (fst b ≫= _); apply _.
Defined.

(** The frame handed to the chart: lines 87 to 99 of the script. *)
Definition sentiment_counts (filtered : DataFrame) : result (list (option string * nat)) :=
  cells ← df_getitem filtered "Sentiment";
  let counts := value_counts cells in
  let order := filtered_order counts in
  let counts' := map (fun row => (categorical order (fst row), snd row)) counts in
  Ret (merge_sort (category_le order) counts').

Definition chart_colors (filtered : DataFrame) : result (list (string * string)) :=
  cells ← df_getitem filtered "Sentiment";
  filtered_colors (filtered_order (value_counts cells)).

(** ** The script *)

Section App.

(** [analyzer.polarity_scores]: on a given argument the analyzer built by
    [SentimentIntensityAnalyzer()] returns a dict of scores or raises. *)
Variable analyzer : pyval -> result (gmap string spec_float).

(** The check [df.loc[:, c] = cells] makes on a column that exists: given the
    cells the column holds and the new ones, the exception pandas raises, if
    any.  What is refused depends on the version of pandas: from 3.0 on,
    strings assigned to a column of dtype float64 raise [TypeError], where
    2.x casts the column. *)
Variable setitem_check : list pyval -> list pyval -> option exn.

(** The directory of the script, [os.path.dirname(os.path.abspath(__file__))]. *)
Variable current_dir : string.

(** The files that exist, by path, with their contents; and [pd.read_csv]
    on the contents of an existing file. *)
Variable files : gmap string string.
Variable parse_csv : string -> result DataFrame.

(** *** get_dataset_path *)

(** [os.path.join(a, b)] for a relative [b]. *)
Definition os_path_join (a b : string) : string :=
  if String.eqb a "" then b
  else if String.eqb (String.substring (String.length a - 1) 1 a) "/" then a +:+ b
  else a +:+ "/" +:+ b.

Definition get_dataset_path : string :=
  let csv_path := os_path_join current_dir "customer_reviews.csv" in
  csv_path.

(** [pd.read_csv(path)] *)
Definition pd_read_csv (path : string) : M DataFrame :=
  match files !! path with
  | None =>
      raise (FileNotFoundError
               ("[Errno 2] No such file or directory: '" +:+ path +:+ "'"))
  | Some contents => lift (parse_csv contents)
  end.

(** *** get_sentiment *)

Definition polarity_scores (text : pyval) : M (gmap string spec_float) :=
  fun w =>
    (analyzer text,
     World (session_state w) (screen w) (cache w) (scored w ++ [text])).

(** [d[k]] on a dict *)
Definition dict_getitem (d : gmap string spec_float) (k : string) : M spec_float :=
  match d !! k with
  | Some v => ret v
  | None => raise (KeyError k)
  end.

(** The body of [get_sentiment], under the decorator. *)
Definition get_sentiment_body (text : pyval) : M string :=
  if py_not text || pd_isna text then
    ret "Neutral"
  else
    try_except
      (scores ← polarity_scores text;
       compound ← dict_getitem scores "compound";
       if float_ge compound f_0_05 then
         ret "Positive"
       else if float_le compound f_neg_0_05 then
         ret "Negative"
       else
         ret "Neutral")
      (fun e =>
         render (st_error ("VADER model error: " +:+ exn_str e));;
         ret "Neutral").

Definition get_sentiment : pyval -> M string := cache_data get_sentiment_body.

(** *** The two buttons *)

(** [series.apply(f)]: [f] on every cell, in order. *)
Fixpoint series_apply (f : pyval -> M string) (cells : list pyval) : M (list pyval) :=
  match cells with
  | [] => ret []
  | x :: cells' =>
      y ← f x;
      ys ← series_apply f cells';
      ret (PStr y :: ys)
  end.

(** [df.loc[:, c] = cells]: a new column is appended; an existing one is
    overwritten when the new cells pass the check, and the frame is left as
    it was when they do not. *)
Definition df_loc_setitem (df : DataFrame) (c : string) (cells : list pyval)
  : result DataFrame :=
  match df_lookup c df with
  | Some old =>
      match setitem_check old cells with
      | Some e => Raise e
      | None => Ret (df_setitem df c cells)
      end
  | None => Ret (df_setitem df c cells)
  end.

Definition load_dataset : M unit :=
  try_except
    (let csv_path := get_dataset_path in
     df ← pd_read_csv csv_path;
     set_session "df" (df_head 10 df);;
     render (st_success "✅ Dataset loaded successfully!"))
    (fun e =>
       match e with
       | FileNotFoundError _ =>
           render (st_error "❌ Dataset not found. Please check the file path.")
       | _ =>
           render (st_error ("⚠️ Unexpected error loading dataset: " +:+ exn_str e))
       end).

(** The handler of the second button.  The right-hand side of the assignment
    is evaluated first, then the frame in the session state is updated in
    place, unless pandas refuses the assignment: its exception is caught like
    any other.  The spinner only decorates the screen while this runs. *)
Definition analyze_sentiment : M unit :=
  has_df ← in_session "df";
  if has_df : bool then
    try_except
      (df ← get_session "df";
       summary ← lift (df_getitem df "SUMMARY");
       labels ← series_apply get_sentiment summary;
       target ← get_session "df";
       updated ← lift (df_loc_setitem target "Sentiment" labels);
       set_session "df" updated;;
       render (st_success "✅ Sentiment analysis completed!"))
      (fun e =>
         render (st_error ("❌ Error during sentiment analysis: " +:+ exn_str e)))
  else
    render (st_warning "⚠️ Please load the dataset first.").

(** *** The table and the chart *)

(** The value of the dropdown: one of the options it is given, as chosen by
    the user. *)
Variable selectbox : list pyval -> pyval.

Definition display : M unit :=
  has_df ← in_session "df";
  if has_df : bool then
    render (st_subheader "🔍 Filter by Product");;
    df ← get_session "df";
    products ← lift (df_getitem df "PRODUCT");
    let product := selectbox (PStr "All Products" :: uniques products) in
    render (st_subheader_f "📁 Reviews for " product);;
    filtered ← lift (filtered_df df product);
    render (st_dataframe filtered);;
    if df_has_column "Sentiment" df then
      render (st_subheader_f "📊 Sentiment Breakdown for " product);;
      bars ← lift (sentiment_counts filtered);
      colors ← lift (chart_colors filtered);
      render (st_plotly_chart bars colors)
    else ret tt
  else ret tt.

(** One run of the script; at most one of the two buttons was clicked. *)
Inductive click : Type := NoClick | LoadDataset | AnalyzeSentiment.

Definition app (c : click) : M unit :=
  render (st_title "🔍 Local Sentiment Analysis Dashboard");;
  render (st_write "This is your *local model* powered sentiment analysis app using VADER.");;
  (match c with LoadDataset => load_dataset | _ => ret tt end);;
  (match c with AnalyzeSentiment => analyze_sentiment | _ => ret tt end);;
  display.

End App.

(** ** Closed forms of the classifier, used by the proofs *)

(** The thresholding of lines 25 to 30. *)
Definition threshold (compound : spec_float) : string :=
  if float_ge compound f_0_05 then "Positive"
  else if float_le compound f_neg_0_05 then "Negative"
  else "Neutral".

(** What a run of the body returns, renders and scores, as functions of the
    argument alone. *)
Definition label_of (analyzer : pyval -> result (gmap string spec_float))
    (text : pyval) : string :=
  if py_not text || pd_isna text then "Neutral"
  else
    match analyzer text with
    | Ret scores =>
        match scores !! "compound" with
        | Some compound => threshold compound
        | None => "Neutral"
        end
    | Raise _ => "Neutral"
    end.

Definition shown_of (analyzer : pyval -> result (gmap string spec_float))
    (text : pyval) : list element :=
  if py_not text || pd_isna text then []
  else
    match analyzer text with
    | Ret scores =>
        match scores !! "compound" with
        | Some _ => []
        | None => [st_error ("VADER model error: " +:+ exn_str (KeyError "compound"))]
        end
    | Raise e => [st_error ("VADER model error: " +:+ exn_str e)]
    end.

Definition invoked_on (text : pyval) : list pyval :=
  if py_not text || pd_isna text then [] else [text].

(** The store only holds what the body computes: the invariant of
    [st.cache_data] for a deterministic analyzer. *)
Definition cache_ok (analyzer : pyval -> result (gmap string spec_float))
    (c : list (pyval * (string * list element))) : Prop :=
  ∀ arg v shown,
    cache_lookup arg c = Some (v, shown) →
    v = label_of analyzer arg ∧ shown = shown_of analyzer arg.

(** The world a call of the decorated function leaves. *)
Definition world_after (analyzer : pyval -> result (gmap string spec_float))
    (text : pyval) (w : world) : world :=
  match cache_lookup text (cache w) with
  | Some _ =>
      World (session_state w) (screen w ++ shown_of analyzer text) (cache w) (scored w)
  | None =>
      World (session_state w) (screen w ++ shown_of analyzer text)
            ((text, (label_of analyzer text, shown_of analyzer text)) :: cache w)
            (scored w ++ invoked_on text)
  end.

(** The world [series.apply(get_sentiment)] leaves: the calls in the order of
    the cells. *)
Definition world_after_all (analyzer : pyval -> result (gmap string spec_float))
    (cells : list pyval) (w : world) : world :=
  foldl (fun w text => world_after analyzer text w) w cells.

(** The Sentiment column the analysis writes for a SUMMARY column. *)
Definition labels_of (analyzer : pyval -> result (gmap string spec_float))
    (cells : list pyval) : list pyval :=
  map (fun text => PStr (label_of analyzer text)) cells.

(** A computation that leaves the session state, the store of the
    classifier and the trace of scorer calls alone (it may render). *)
Definition preserves {A : Type} (m : M A) : Prop :=
  ∀ w, session_state (m w).2 = session_state w ∧
       cache (m w).2 = cache w ∧
       scored (m w).2 = scored w.

(** The worlds the script can be run in: the first run starts from an empty
    session; every later run starts from what the previous run left, with a
    cleared screen, whatever was clicked or selected, whatever files then
    exist and whatever assignments pandas then accepts. *)
Inductive reachable (analyzer : pyval -> result (gmap string spec_float))
  : world -> Prop :=
  | reachable_init : reachable analyzer (World ∅ [] [] [])
  | reachable_run (setitem_check : list pyval -> list pyval -> option exn)
      (w : world) (current_dir : string) (files : gmap string string)
      (parse_csv : string -> result DataFrame) (selectbox : list pyval -> pyval)
      (c : click) :
      reachable analyzer w →
      reachable analyzer
        (World (session_state
                  (app analyzer setitem_check current_dir files parse_csv selectbox c w).2)
               []
               (cache (app analyzer setitem_check current_dir files parse_csv selectbox c w).2)
               (scored (app analyzer setitem_check current_dir files parse_csv selectbox c w).2)).

(** ** Vocabulary of the aggregate properties *)

(** A cell that carries one of the three labels. *)
Definition is_label (x : pyval) : Prop :=
  ∃ s, s ∈ sentiment_order ∧ x = PStr s.

(** Number of cells that carry the label [s]. *)
Definition occurrences (s : string) (cells : list pyval) : nat :=
  length (filter (fun x => x = PStr s) cells).

(** The labels of the canonical sequence that occur in the column, in that
    sequence. *)
Definition present_labels (cells : list pyval) : list string :=
  List.filter (fun s => bool_decide (PStr s ∈ cells)) sentiment_order.

(** The count [value_counts] attaches to a value of the column. *)
Definition count_of (cells : list pyval) (k : pyval) : nat :=
  length (filter (fun x => hash_eqb k x = true) cells).

(** ** Concrete inputs of the examples *)

(** A stand-in for the analyzer: a few strings with a fixed compound score,
    one with a dict that lacks the key, every other string scored 0.0, and a
    value that is no string makes it raise. *)
Definition demo_scores (compound : spec_float) : gmap string spec_float :=
  <["neg" := f_0]> (<["neu" := f_0]> (<["pos" := f_0]> (<["compound" := compound]> ∅))).

Definition demo_analyzer (text : pyval) : result (gmap string spec_float) :=
  match text with
  | PStr "great product" => Ret (demo_scores (S754_finite false 5628598814287646 (-53)))
  | PStr "terrible experience" => Ret (demo_scores (S754_finite true 8587463769470062 (-54)))
  | PStr "on the line" => Ret (demo_scores f_0_05)
  | PStr "under the line" => Ret (demo_scores f_neg_0_05)
  | PStr "slightly good" => Ret (demo_scores (S754_finite false 5764607523034235 (-57)))
  | PStr "no compound" => Ret ∅
  | PStr _ => Ret (demo_scores f_0)
  | _ => Raise (OtherError "TypeError" "expected a string")
  end.

(** A stand-in for the check of pandas 3 on an assignment to an existing
    column: strings are refused by a column that holds numbers only. *)
Definition demo_setitem_check (old cells : list pyval) : option exn :=
  if forallb (fun x => match x with PFloat _ => true | _ => false end) old
     && existsb (fun x => match x with PStr _ => true | _ => false end) cells
  then Some (OtherError "TypeError" "Invalid value for dtype 'float64'")
  else None.

Definition demo_world : world := World ∅ [] [] [].

Definition demo_df : DataFrame :=
  [("PRODUCT", [PStr "Widget"; PStr "Gadget"; PStr "Widget"; NaN]);
   ("SUMMARY", [PStr "great product"; PStr "terrible experience"; PStr "it's fine"; NaN])].

Definition demo_loaded_world : world := World (<["df" := demo_df]> ∅) [] [] [].

Definition demo_labeled : DataFrame :=
  [("PRODUCT", [PStr "Widget"; PStr "Gadget"; PStr "Widget"; PStr "Widget"; PStr "Gadget"]);
   ("Sentiment", [PStr "Positive"; PStr "Neutral"; PStr "Positive"; PStr "Neutral";
                  PStr "Positive"])].

Definition demo_files : gmap string string :=
  <["/srv/app/customer_reviews.csv" := "PRODUCT,SUMMARY"]> ∅.

Definition demo_parse (contents : string) : result DataFrame :=
  if String.eqb contents "PRODUCT,SUMMARY" then Ret demo_df
  else Raise (OtherError "ParserError" "Error tokenizing data").

(** A file of twelve reviews, and the session that holds the four-row
    dataset while that file is on disk. *)
Definition demo_long_df : DataFrame :=
  [("PRODUCT", [PStr "Widget"; PStr "Gadget"; PStr "Widget"; PStr "Gizmo";
                PStr "Gadget"; PStr "Widget"; PStr "Gizmo"; PStr "Gadget";
                PStr "Widget"; PStr "Gizmo"; PStr "Gadget"; PStr "Widget"]);
   ("SUMMARY", [PStr "great product"; PStr "terrible experience"; PStr "it's fine";
                PStr "great product"; PStr "slightly good"; PStr "on the line";
                PStr "under the line"; PStr "nothing special"; PStr "as described";
                PStr "tenth review"; PStr "eleventh review"; PStr "twelfth review"])].

Definition demo_long_files : gmap string string :=
  <["/srv/app/customer_reviews.csv" := "twelve reviews"]> ∅.

Definition demo_long_parse (contents : string) : result DataFrame :=
  if String.eqb contents "twelve reviews" then Ret demo_long_df
  else Raise (OtherError "ParserError" "Error tokenizing data").

(** A dataset that came with a Sentiment column of texts, one missing. *)
Definition demo_tagged_df : DataFrame :=
  [("SUMMARY", [PStr "great product"; PStr "terrible experience"]);
   ("Sentiment", [PStr "good"; NaN])].

Definition demo_tagged_world : world := World (<["df" := demo_tagged_df]> ∅) [] [] [].

(** A dataset that came with a numeric Sentiment column. *)
Definition demo_rated_df : DataFrame :=
  [("SUMMARY", [PStr "great product"; PStr "terrible experience"]);
   ("Sentiment", [PFloat f_0_05; PFloat f_0])].

Definition demo_rated_world : world := World (<["df" := demo_rated_df]> ∅) [] [] [].

(** ** Vocabulary of the further properties *)

(** What a computation adds to the screen. *)
Definition rendered_by {A : Type} (m : M A) (w : world) : list element :=
  drop (length (screen w)) (screen (m w).2).

(** The rows of a column that a selection of the dropdown keeps. *)
Definition matching (product : pyval) (cells : list pyval) : list pyval :=
  List.filter (fun cell => series_eq cell product) cells.

(** The cells of a column in the rows that a selection keeps: the rows whose
    PRODUCT cell equals the selection, in the order of the rows. *)
Definition kept_cells (product : pyval) (products cells : list pyval) : list pyval :=
  map snd (List.filter (fun row => series_eq (fst row) product) (zip products cells)).

(** No text was scored twice, and what was scored is in the store of
    [st.cache_data] and passed the guard of [get_sentiment]. *)
Definition scored_once (w : world) : Prop :=
  NoDup (scored w) ∧
  ∀ x, x ∈ scored w →
       is_Some (cache_lookup x (cache w)) ∧ py_not x || pd_isna x = false.

(** A file that exists and that [demo_parse] cannot read. *)
Definition demo_bad_files : gmap string string :=
  <["/srv/app/customer_reviews.csv" := "PRODUCT;SUMMARY"]> ∅.

(** A dataset without the SUMMARY column, and one without PRODUCT. *)
Definition demo_no_summary_world : world :=
  World (<["df" := [("PRODUCT", [PStr "Widget"; PStr "Gadget"])]]> ∅) [] [] [].

Definition demo_no_product_world : world :=
  World (<["df" := [("SUMMARY", [PStr "great product"])]]> ∅) [] [] [].

(** A session of two runs: Load Dataset is clicked, then Analyze Sentiment;
    the dropdown stays on its first option. *)
Definition demo_selectbox (options : list pyval) : pyval :=
  default PNone (head options).

Definition demo_session_1 : world :=
  World (session_state (app demo_analyzer demo_setitem_check "/srv/app" demo_files demo_parse
                            demo_selectbox LoadDataset (World ∅ [] [] [])).2)
        []
        (cache (app demo_analyzer demo_setitem_check "/srv/app" demo_files demo_parse
                    demo_selectbox LoadDataset (World ∅ [] [] [])).2)
        (scored (app demo_analyzer demo_setitem_check "/srv/app" demo_files demo_parse
                     demo_selectbox LoadDataset (World ∅ [] [] [])).2).

Definition demo_session_2 : world :=
  World (session_state (app demo_analyzer demo_setitem_check "/srv/app" demo_files demo_parse
                            demo_selectbox AnalyzeSentiment demo_session_1).2)
        []
        (cache (app demo_analyzer demo_setitem_check "/srv/app" demo_files demo_parse
                    demo_selectbox AnalyzeSentiment demo_session_1).2)
        (scored (app demo_analyzer demo_setitem_check "/srv/app" demo_files demo_parse
                     demo_selectbox AnalyzeSentiment demo_session_1).2).

(** A value some key of [K] stands for. *)
Definition covered (K : list pyval) (y : pyval) : bool :=
  existsb (fun k => hash_eqb k y) K.

(** ** Floats *)

Lemma SFcompare_antisym (a b : spec_float) :
  SFcompare b a = CompOpp <$> SFcompare a b.
Proof.
  destruct a as [sa|sa| |sa ma ea], b as [sb|sb| |sb mb eb]; simpl;
    try (destruct sa); try (destruct sb); try reflexivity;
    rewrite (Z.compare_antisym ea eb);
    destruct (ea ?= eb)%Z; simpl; try reflexivity;
    rewrite (Pos.compare_cont_antisym ma mb Eq); simpl;
    by destruct (Pos.compare_cont Eq mb ma).
Qed.

Lemma float_lt_not_ge (a b : spec_float) :
  float_lt a b = true → float_ge a b = false.
Proof.
  unfold float_lt, float_ge, SFltb, SFleb.
  rewrite (SFcompare_antisym a b).
  by destruct (SFcompare a b) as [[]|].
Qed.

Lemma float_lt_not_le (a b : spec_float) :
  float_lt a b = true → float_le b a = false.
Proof. apply float_lt_not_ge. Qed.

(** A score at or below [-0.05] is not at or above [0.05]: the second test
    of the chain decides for it. *)
Lemma float_le_neg_not_ge (c : spec_float) :
  float_le c f_neg_0_05 = true → float_ge c f_0_05 = false.
Proof.
  unfold float_le, float_ge. intros H.
  destruct c as [[]|[]| |[] m e];
    first [ reflexivity | exfalso; vm_compute in H; discriminate H ].
Qed.

(** The literal is the binary64 value nearest to 1/20: it is
    [7205759403792794 / 2^57], within half a unit in the last place. *)
Lemma f_0_05_nearest :
  f_0_05 = S754_finite false 7205759403792794 (-57) ∧
  (Z.abs (20 * 7205759403792794 - 2 ^ 57) ≤ 10)%Z ∧
  (2 ^ 52 ≤ 7205759403792794 < 2 ^ 53)%Z.
Proof. split; [reflexivity | split; [|split]]; by vm_compute. Qed.

Lemma threshold_positive c : float_ge c f_0_05 = true → threshold c = "Positive".
Proof. unfold threshold. by intros ->. Qed.

Lemma threshold_negative c : float_le c f_neg_0_05 = true → threshold c = "Negative".
Proof.
  intros H. unfold threshold. by rewrite (float_le_neg_not_ge c H), H.
Qed.

Lemma threshold_neutral c :
  float_lt f_neg_0_05 c = true → float_lt c f_0_05 = true →
  threshold c = "Neutral".
Proof.
  intros Hlo Hhi. unfold threshold.
  by rewrite (float_lt_not_ge _ _ Hhi), (float_lt_not_le _ _ Hlo).
Qed.

Lemma threshold_label c : threshold c ∈ ["Positive"; "Negative"; "Neutral"].
Proof.
  unfold threshold.
  destruct (float_ge c f_0_05); [set_solver|].
  destruct (float_le c f_neg_0_05); set_solver.
Qed.

(** ** The classifier *)

Section Classifier.

Variable analyzer : pyval -> result (gmap string spec_float).

Lemma guard_false_inv (text : pyval) :
  py_not text = false → pd_isna text = false → py_not text || pd_isna text = false.
Proof. by intros -> ->. Qed.

(** The body returns the closed-form label, renders the closed-form elements
    and scores at most its own argument. *)
Lemma get_sentiment_body_spec (text : pyval) (w : world) :
  get_sentiment_body analyzer text w =
    (Ret (label_of analyzer text),
     World (session_state w) (screen w ++ shown_of analyzer text) (cache w)
           (scored w ++ invoked_on text)).
Proof.
  unfold get_sentiment_body, label_of, shown_of, invoked_on.
  destruct (py_not text || pd_isna text).
  { destruct w; unfold ret; simpl. by rewrite !app_nil_r. }
  unfold try_except, mbind, M_bind, polarity_scores; simpl.
  destruct (analyzer text) as [scores|e]; simpl.
  - unfold dict_getitem.
    destruct (scores !! "compound") as [c|]; simpl.
    + unfold threshold, ret; simpl. rewrite app_nil_r.
      destruct (float_ge c f_0_05); [done|].
      by destruct (float_le c f_neg_0_05).
    + done.
  - done.
Qed.

Lemma get_sentiment_spec (text : pyval) (w : world) :
  cache_ok analyzer (cache w) →
  get_sentiment analyzer text w = (Ret (label_of analyzer text), world_after analyzer text w).
Proof.
  intros Hok. unfold get_sentiment, cache_data, world_after.
  destruct (cache_lookup text (cache w)) as [[v shown]|] eqn:Hhit.
  - by destruct (Hok _ _ _ Hhit) as [-> ->].
  - rewrite get_sentiment_body_spec; simpl.
    by rewrite drop_app_length.
Qed.

Lemma cache_ok_nil : cache_ok analyzer [].
Proof. by intros arg v shown. Qed.

Lemma cache_ok_after (text : pyval) (w : world) :
  cache_ok analyzer (cache w) → cache_ok analyzer (cache (world_after analyzer text w)).
Proof.
  intros Hok. unfold world_after.
  destruct (cache_lookup text (cache w)) eqn:Hhit; simpl; [done|].
  intros arg v shown; simpl.
  destruct (decide (text = arg)) as [->|]; [|by apply Hok].
  by intros [= <- <-].
Qed.

Lemma session_state_after (text : pyval) (w : world) :
  session_state (world_after analyzer text w) = session_state w.
Proof. unfold world_after. by destruct (cache_lookup text (cache w)). Qed.

Lemma screen_after (text : pyval) (w : world) :
  screen (world_after analyzer text w) = screen w ++ shown_of analyzer text.
Proof. unfold world_after. by destruct (cache_lookup text (cache w)). Qed.

(** A second call on the same argument is served from the store. *)
Lemma cache_lookup_after (text : pyval) (w : world) :
  is_Some (cache_lookup text (cache (world_after analyzer text w))).
Proof.
  unfold world_after.
  destruct (cache_lookup text (cache w)) eqn:Hhit; simpl.
  - by rewrite Hhit.
  - by rewrite decide_True.
Qed.

Lemma label_of_label (text : pyval) :
  label_of analyzer text ∈ ["Positive"; "Negative"; "Neutral"].
Proof.
  unfold label_of.
  destruct (py_not text || pd_isna text); [set_solver|].
  destruct (analyzer text) as [scores|]; [|set_solver].
  destruct (scores !! "compound"); [apply threshold_label|set_solver].
Qed.

Lemma series_apply_spec (cells : list pyval) (w : world) :
  cache_ok analyzer (cache w) →
  series_apply (get_sentiment analyzer) cells w =
    (Ret (map (fun text => PStr (label_of analyzer text)) cells),
     world_after_all analyzer cells w).
Proof.
  revert w. induction cells as [|x cells IH]; intros w Hok; [done|].
  simpl. unfold mbind, M_bind at 1.
  rewrite (get_sentiment_spec x w Hok).
  unfold mbind, M_bind at 1.
  by rewrite (IH _ (cache_ok_after x w Hok)).
Qed.

Lemma cache_ok_after_all (cells : list pyval) (w : world) :
  cache_ok analyzer (cache w) → cache_ok analyzer (cache (world_after_all analyzer cells w)).
Proof.
  revert w. induction cells as [|x cells IH]; intros w Hok; [done|].
  simpl. apply IH. by apply cache_ok_after.
Qed.

Lemma session_state_after_all (cells : list pyval) (w : world) :
  session_state (world_after_all analyzer cells w) = session_state w.
Proof.
  revert w. induction cells as [|x cells IH]; intros w; [done|].
  simpl. by rewrite IH, session_state_after.
Qed.

End Classifier.

(** ** DataFrame updates *)

Lemma df_lookup_setitem_eq (df : DataFrame) (c : string) (cells : list pyval) :
  df_lookup c (df_setitem df c cells) = Some cells.
Proof.
  induction df as [|[c' old] df IH]; simpl.
  - by rewrite String.eqb_refl.
  - destruct (String.eqb c' c) eqn:E; simpl; by rewrite E.
Qed.

Lemma df_lookup_setitem_ne (df : DataFrame) (c c' : string) (cells : list pyval) :
  c ≠ c' → df_lookup c' (df_setitem df c cells) = df_lookup c' df.
Proof.
  intros Hne. induction df as [|[c0 old] df IH]; simpl.
  - destruct (String.eqb c c') eqn:E; [|done].
    by apply String.eqb_eq in E.
  - destruct (String.eqb c0 c) eqn:E; simpl.
    + apply String.eqb_eq in E as ->.
      destruct (String.eqb c c') eqn:E'; [|done].
      by apply String.eqb_eq in E'.
    + by rewrite IH.
Qed.

(** Writing the same column twice is writing it once. *)
Lemma df_setitem_idem (df : DataFrame) (c : string) (cells : list pyval) :
  df_setitem (df_setitem df c cells) c cells = df_setitem df c cells.
Proof.
  induction df as [|[c' old] df IH]; simpl.
  - by rewrite String.eqb_refl.
  - destruct (String.eqb c' c) eqn:E; simpl; rewrite E; [done|].
    by rewrite IH.
Qed.

Lemma df_lookup_head (n : nat) (df : DataFrame) (c : string) :
  df_lookup c (df_head n df) = take n <$> df_lookup c df.
Proof.
  induction df as [|[c' cells] df IH]; simpl; [done|].
  by destruct (String.eqb c' c).
Qed.

Lemma df_columns_head (n : nat) (df : DataFrame) :
  df_columns (df_head n df) = df_columns df.
Proof.
  unfold df_columns, df_head. rewrite map_map. by apply map_ext.
Qed.

Lemma df_head_wf (n : nat) (df : DataFrame) : df_wf df → df_wf (df_head n df).
Proof.
  unfold df_wf. intros Hwf.
  assert (Hlen : df_len (df_head n df) = min n (df_len df)).
  { destruct df as [|[c cells] df]; simpl; [lia|]. by rewrite length_take. }
  rewrite Hlen. unfold df_head. apply Forall_map.
  eapply Forall_impl; [exact Hwf|].
  intros [c cells] Hc; simpl in *. by rewrite length_take, Hc.
Qed.

(** ** The two buttons *)

Section Buttons.

Variable analyzer : pyval -> result (gmap string spec_float).
Variable setitem_check : list pyval -> list pyval -> option exn.
Variable current_dir : string.
Variable files : gmap string string.
Variable parse_csv : string -> result DataFrame.

Lemma analyze_sentiment_no_df (w : world) :
  session_state w !! "df" = None →
  analyze_sentiment analyzer setitem_check w =
    (Ret tt, World (session_state w)
                   (screen w ++ [st_warning "⚠️ Please load the dataset first."])
                   (cache w) (scored w)).
Proof.
  intros Hno. unfold analyze_sentiment, mbind, M_bind, in_session.
  rewrite Hno. rewrite bool_decide_false; [done|].
  by intros [? ?].
Qed.

Lemma analyze_sentiment_no_summary (w : world) (df : DataFrame) :
  session_state w !! "df" = Some df →
  df_lookup "SUMMARY" df = None →
  analyze_sentiment analyzer setitem_check w =
    (Ret tt, World (session_state w)
                   (screen w ++ [st_error ("❌ Error during sentiment analysis: "
                                           +:+ exn_str (KeyError "SUMMARY"))])
                   (cache w) (scored w)).
Proof.
  intros Hdf Hno. unfold analyze_sentiment, mbind, M_bind, in_session.
  rewrite Hdf. rewrite bool_decide_true; [|by eexists].
  unfold try_except, get_session, lift, df_getitem.
  by rewrite Hdf, Hno.
Qed.

(** With a SUMMARY column the handler scores the cells, then assigns: the
    labels are stored when pandas accepts them, and the exception is shown
    when it does not. *)
Lemma analyze_sentiment_run (w : world) (df : DataFrame) (summary : list pyval) :
  cache_ok analyzer (cache w) →
  session_state w !! "df" = Some df →
  df_lookup "SUMMARY" df = Some summary →
  analyze_sentiment analyzer setitem_check w =
    (Ret tt,
     match df_loc_setitem setitem_check df "Sentiment" (labels_of analyzer summary) with
     | Ret updated =>
         World (<["df" := updated]> (session_state w))
               (screen (world_after_all analyzer summary w)
                  ++ [st_success "✅ Sentiment analysis completed!"])
               (cache (world_after_all analyzer summary w))
               (scored (world_after_all analyzer summary w))
     | Raise e =>
         World (session_state w)
               (screen (world_after_all analyzer summary w)
                  ++ [st_error ("❌ Error during sentiment analysis: " +:+ exn_str e)])
               (cache (world_after_all analyzer summary w))
               (scored (world_after_all analyzer summary w))
     end).
Proof.
  intros Hok Hdf Hsum. unfold analyze_sentiment, mbind, M_bind, in_session.
  rewrite Hdf. rewrite bool_decide_true; [|by eexists].
  unfold try_except, get_session, lift, df_getitem.
  rewrite Hdf, Hsum.
  rewrite (series_apply_spec analyzer summary w Hok).
  rewrite session_state_after_all, Hdf.
  fold (labels_of analyzer summary).
  destruct (df_loc_setitem setitem_check df "Sentiment" (labels_of analyzer summary))
    as [updated|e]; unfold set_session, render; simpl;
    by rewrite session_state_after_all.
Qed.

Lemma df_loc_setitem_accepted (df : DataFrame) (c : string) (cells : list pyval) :
  (∀ old, df_lookup c df = Some old → setitem_check old cells = None) →
  df_loc_setitem setitem_check df c cells = Ret (df_setitem df c cells).
Proof.
  intros Hacc. unfold df_loc_setitem.
  destruct (df_lookup c df) as [old|]; [|done]. by rewrite (Hacc old eq_refl).
Qed.

(** An assignment yields the frame with the column set, or is refused on a
    column that exists. *)
Lemma df_loc_setitem_cases (df : DataFrame) (c : string) (cells : list pyval) :
  df_loc_setitem setitem_check df c cells = Ret (df_setitem df c cells) ∨
  ∃ old e, df_lookup c df = Some old ∧ setitem_check old cells = Some e ∧
           df_loc_setitem setitem_check df c cells = Raise e.
Proof.
  unfold df_loc_setitem.
  destruct (df_lookup c df) as [old|]; [|by left].
  destruct (setitem_check old cells) as [e|] eqn:Hcheck; [|by left].
  right. by exists old, e.
Qed.

Lemma analyze_sentiment_spec (w : world) (df : DataFrame) (summary : list pyval) :
  cache_ok analyzer (cache w) →
  session_state w !! "df" = Some df →
  df_lookup "SUMMARY" df = Some summary →
  (∀ old, df_lookup "Sentiment" df = Some old →
          setitem_check old (labels_of analyzer summary) = None) →
  analyze_sentiment analyzer setitem_check w =
    (Ret tt,
     World (<["df" := df_setitem df "Sentiment" (labels_of analyzer summary)]> (session_state w))
           (screen (world_after_all analyzer summary w)
              ++ [st_success "✅ Sentiment analysis completed!"])
           (cache (world_after_all analyzer summary w))
           (scored (world_after_all analyzer summary w))).
Proof.
  intros Hok Hdf Hsum Hacc.
  rewrite (analyze_sentiment_run w df summary Hok Hdf Hsum).
  by rewrite (df_loc_setitem_accepted df "Sentiment" _ Hacc).
Qed.

Lemma analyze_sentiment_refused (w : world) (df : DataFrame)
    (summary old : list pyval) (e : exn) :
  cache_ok analyzer (cache w) →
  session_state w !! "df" = Some df →
  df_lookup "SUMMARY" df = Some summary →
  df_lookup "Sentiment" df = Some old →
  setitem_check old (labels_of analyzer summary) = Some e →
  analyze_sentiment analyzer setitem_check w =
    (Ret tt,
     World (session_state w)
           (screen (world_after_all analyzer summary w)
              ++ [st_error ("❌ Error during sentiment analysis: " +:+ exn_str e)])
           (cache (world_after_all analyzer summary w))
           (scored (world_after_all analyzer summary w))).
Proof.
  intros Hok Hdf Hsum Hold Hcheck.
  rewrite (analyze_sentiment_run w df summary Hok Hdf Hsum).
  unfold df_loc_setitem. by rewrite Hold, Hcheck.
Qed.

Lemma load_dataset_missing (w : world) :
  files !! get_dataset_path current_dir = None →
  load_dataset current_dir files parse_csv w =
    (Ret tt, World (session_state w)
                   (screen w ++ [st_error "❌ Dataset not found. Please check the file path."])
                   (cache w) (scored w)).
Proof.
  intros Hno. unfold load_dataset, try_except, mbind, M_bind, pd_read_csv.
  by rewrite Hno.
Qed.

Lemma load_dataset_unreadable (w : world) (contents : string) (e : exn) :
  files !! get_dataset_path current_dir = Some contents →
  parse_csv contents = Raise e →
  session_state (load_dataset current_dir files parse_csv w).2 = session_state w.
Proof.
  intros Hfile Hparse. unfold load_dataset, try_except, mbind, M_bind, pd_read_csv.
  rewrite Hfile. unfold lift. rewrite Hparse. by destruct e.
Qed.

Lemma load_dataset_ok (w : world) (contents : string) (df : DataFrame) :
  files !! get_dataset_path current_dir = Some contents →
  parse_csv contents = Ret df →
  load_dataset current_dir files parse_csv w =
    (Ret tt, World (<["df" := df_head 10 df]> (session_state w))
                   (screen w ++ [st_success "✅ Dataset loaded successfully!"])
                   (cache w) (scored w)).
Proof.
  intros Hfile Hparse. unfold load_dataset, try_except, mbind, M_bind, pd_read_csv.
  rewrite Hfile. unfold lift. by rewrite Hparse.
Qed.

End Buttons.

(** ** The aggregate *)

Lemma hash_eqb_str (s : string) (y : pyval) :
  hash_eqb (PStr s) y = true ↔ y = PStr s.
Proof.
  destruct y as [|t|f]; simpl; try (split; [discriminate|discriminate]).
  rewrite String.eqb_eq. split; [by intros ->|by intros [= ->]].
Qed.

Lemma series_eq_str (cell : pyval) (s : string) :
  series_eq cell (PStr s) = true ↔ cell = PStr s.
Proof.
  destruct cell as [|t|f]; simpl; try (split; [discriminate|discriminate]).
  rewrite String.eqb_eq. split; [by intros ->|by intros [= ->]].
Qed.

Lemma array_contains_spec (s : string) (cells : list pyval) :
  array_contains s cells = true ↔ PStr s ∈ cells.
Proof.
  unfold array_contains. rewrite existsb_exists. split.
  - intros (cell & Hin & Heq). apply series_eq_str in Heq as ->.
    by apply list_elem_of_In.
  - intros Hin. exists (PStr s). split; [by apply list_elem_of_In|].
    by apply series_eq_str.
Qed.

Lemma dropna_labels (cells : list pyval) :
  Forall is_label cells → filter (fun x => pd_isna x = false) cells = cells.
Proof.
  induction 1 as [|x cells (s & _ & ->) _ IH]; [done|].
  rewrite filter_cons_True by done. by rewrite IH.
Qed.

Lemma uniques_spec (cells : list pyval) :
  Forall is_label cells →
  NoDup (uniques cells) ∧ ∀ x, x ∈ uniques cells ↔ x ∈ cells.
Proof.
  induction 1 as [|x cells (s & _ & ->) _ [IHnd IHin]]; simpl.
  - split; [constructor|done].
  - assert (Hfilter : ∀ y,
      y ∈ filter (fun y => hash_eqb (PStr s) y = false) (uniques cells) ↔
      y ≠ PStr s ∧ y ∈ cells).
    { intros y. rewrite list_elem_of_filter, IHin.
      rewrite <- (hash_eqb_str s y).
      destruct (hash_eqb (PStr s) y); intuition congruence. }
    split.
    + constructor; [|by apply NoDup_filter].
      rewrite Hfilter. by intros [? _].
    + intros y. rewrite !elem_of_cons, Hfilter.
      destruct (decide (y = PStr s)); intuition congruence.
Qed.

Lemma index_of_Some (s : string) (cats : list string) (i : nat) :
  index_of s cats = Some i → cats !! i = Some s.
Proof.
  revert i. induction cats as [|c cats IH]; intros i; simpl; [done|].
  destruct (String.eqb c s) eqn:E.
  - intros [= <-]. by apply String.eqb_eq in E as ->.
  - destruct (index_of s cats) as [j|]; simpl; [|done].
    intros [= <-]. by apply IH.
Qed.

Lemma index_of_elem (s : string) (cats : list string) :
  s ∈ cats → is_Some (index_of s cats).
Proof.
  induction 1 as [s cats|s c cats _ IH]; simpl.
  - rewrite String.eqb_refl. by eexists.
  - destruct (String.eqb c s); [by eexists|].
    destruct IH as [j ->]. by eexists.
Qed.

#[global] Instance category_le_total cats : Total (category_le cats).
Proof.
  intros a b. unfold category_le.
  destruct (fst a ≫= _), (fst b ≫= _); simpl; auto; lia.
Qed.

#[global] Instance category_le_trans cats : Transitive (category_le cats).
Proof.
  intros a b c. unfold category_le.
  destruct (fst a ≫= _), (fst b ≫= _), (fst c ≫= _); simpl; auto; try lia; done.
Qed.

(** Two rows with a category of [cats] that the order cannot tell apart
    carry the same category. *)
Lemma category_le_antisym (cats : list string) (s t : string) (n m : nat) :
  s ∈ cats → t ∈ cats →
  category_le cats (Some s, n) (Some t, m) →
  category_le cats (Some t, m) (Some s, n) →
  s = t.
Proof.
  intros Hs Ht. unfold category_le; simpl.
  destruct (index_of_elem s cats Hs) as [i Hi].
  destruct (index_of_elem t cats Ht) as [j Hj].
  rewrite Hi, Hj. intros ? ?.
  assert (i = j) as -> by lia.
  apply index_of_Some in Hi, Hj. congruence.
Qed.

#[global] Instance PStr_inj : Inj (=) (=) PStr.
Proof. by intros s t [= ->]. Qed.

Section Aggregate.

Variable cells : list pyval.
Hypothesis Hlabels : Forall is_label cells.

Lemma count_of_occurrences (s : string) : count_of cells (PStr s) = occurrences s cells.
Proof.
  unfold count_of, occurrences. f_equal.
  apply list_filter_iff. intros x. apply hash_eqb_str.
Qed.

Lemma value_counts_perm :
  value_counts cells ≡ₚ map (fun k => (k, count_of cells k)) (uniques cells).
Proof.
  unfold value_counts. rewrite (dropna_labels cells Hlabels).
  apply merge_sort_Permutation.
Qed.

Lemma value_counts_keys : map fst (value_counts cells) ≡ₚ uniques cells.
Proof.
  rewrite value_counts_perm, map_map; simpl. by rewrite map_id.
Qed.

Lemma uniques_labels : Forall is_label (uniques cells).
Proof.
  rewrite Forall_forall in Hlabels. apply Forall_forall. intros x Hx.
  apply Hlabels. by apply (uniques_spec cells); [apply Forall_forall|].
Qed.

Lemma existing_sentiments_spec (x : pyval) :
  x ∈ uniques (map fst (value_counts cells)) ↔ x ∈ cells.
Proof.
  assert (Hkeys : Forall is_label (map fst (value_counts cells))).
  { rewrite value_counts_keys. apply uniques_labels. }
  destruct (uniques_spec _ Hkeys) as [_ ->].
  rewrite value_counts_keys.
  by destruct (uniques_spec cells Hlabels) as [_ ->].
Qed.

Lemma filtered_order_present :
  filtered_order (value_counts cells) = present_labels cells.
Proof.
  unfold filtered_order, present_labels. apply List.filter_ext. intros s.
  apply eq_true_iff_eq.
  rewrite array_contains_spec, existing_sentiments_spec.
  by rewrite bool_decide_eq_true.
Qed.

Lemma present_labels_spec (s : string) :
  s ∈ present_labels cells ↔ s ∈ sentiment_order ∧ PStr s ∈ cells.
Proof.
  unfold present_labels.
  rewrite list_elem_of_In, filter_In, <- list_elem_of_In.
  by rewrite bool_decide_eq_true.
Qed.

Lemma present_labels_NoDup : NoDup (present_labels cells).
Proof.
  apply NoDup_ListNoDup, List.NoDup_filter, NoDup_ListNoDup.
  apply (bool_decide_unpack _). by vm_compute.
Qed.

(** The distinct values of the column are the present labels, up to order. *)
Lemma uniques_present : uniques cells ≡ₚ map PStr (present_labels cells).
Proof.
  apply NoDup_Permutation.
  - by apply uniques_spec.
  - apply (NoDup_fmap_2 PStr), present_labels_NoDup.
  - intros x. destruct (uniques_spec cells Hlabels) as [_ ->].
    rewrite list_elem_of_fmap. split.
    + intros Hx. rewrite Forall_forall in Hlabels.
      destruct (Hlabels x Hx) as (s & Hs & ->).
      exists s. split; [done|]. by apply present_labels_spec.
    + intros (s & -> & Hs). by apply present_labels_spec in Hs as [_ ?].
Qed.

(** The rows the chart is given, before they are sorted. *)
Lemma categorical_rows_perm :
  map (fun row => (categorical (present_labels cells) (fst row), snd row))
      (value_counts cells)
  ≡ₚ map (fun s => (Some s, occurrences s cells)) (present_labels cells).
Proof.
  rewrite value_counts_perm, uniques_present, !map_map.
  rewrite (map_ext_in _ (fun s => (Some s, occurrences s cells))); [done|].
  intros s Hs; simpl.
  rewrite bool_decide_true by (by apply list_elem_of_In).
  by rewrite count_of_occurrences.
Qed.

(** In the canonical sequence the rows are already sorted. *)
Lemma present_rows_sorted :
  Sorted (category_le (present_labels cells))
         (map (fun s => (Some s, occurrences s cells)) (present_labels cells)).
Proof.
  unfold present_labels, sentiment_order; simpl.
  destruct (bool_decide (PStr "Negative" ∈ cells)),
           (bool_decide (PStr "Neutral" ∈ cells)),
           (bool_decide (PStr "Positive" ∈ cells)); simpl;
    repeat first [ apply Sorted_nil | apply Sorted_cons | apply HdRel_nil
                 | apply HdRel_cons ];
    vm_compute; lia.
Qed.

Lemma sorted_rows_eq :
  merge_sort (category_le (present_labels cells))
    (map (fun row => (categorical (present_labels cells) (fst row), snd row))
         (value_counts cells))
  = map (fun s => (Some s, occurrences s cells)) (present_labels cells).
Proof.
  apply (Sorted_unique_strong (category_le (present_labels cells))).
  - intros x1 x2 Hx1 Hx2 H12 H21.
    rewrite merge_sort_Permutation, categorical_rows_perm in Hx1.
    apply list_elem_of_fmap in Hx1 as (s & -> & Hs).
    apply list_elem_of_fmap in Hx2 as (t & -> & Ht).
    by rewrite (category_le_antisym _ s t _ _ Hs Ht H12 H21).
  - apply Sorted_merge_sort, _.
  - apply present_rows_sorted.
  - rewrite merge_sort_Permutation. apply categorical_rows_perm.
Qed.

(** Every cell carries exactly one of the three labels. *)
Lemma occurrences_total :
  occurrences "Negative" cells + occurrences "Neutral" cells
    + occurrences "Positive" cells = length cells.
Proof.
  unfold occurrences.
  cut (∀ l : list pyval, Forall is_label l →
         length (filter (fun x => x = PStr "Negative") l)
         + length (filter (fun x => x = PStr "Neutral") l)
         + length (filter (fun x => x = PStr "Positive") l) = length l).
  { intros H. exact (H cells Hlabels). }
  clear. intros l Hl.
  induction Hl as [|x l (s & Hs & ->) _ IH]; [done|].
  rewrite !filter_cons. simpl length. rewrite <- IH.
  unfold sentiment_order in Hs.
  apply elem_of_cons in Hs as [->|Hs];
    [repeat case_decide; simplify_eq; simpl; lia|].
  apply elem_of_cons in Hs as [->|Hs];
    [repeat case_decide; simplify_eq; simpl; lia|].
  apply list_elem_of_singleton in Hs as ->.
  repeat case_decide; simplify_eq; simpl; lia.
Qed.

Lemma occurrences_absent (s : string) : PStr s ∉ cells → occurrences s cells = 0.
Proof.
  intros Hno. unfold occurrences.
  destruct (filter (fun x => x = PStr s) cells) as [|y l] eqn:E; [done|].
  assert (Hy : y ∈ filter (fun x => x = PStr s) cells) by (rewrite E; left).
  apply list_elem_of_filter in Hy as [-> Hy]. by destruct Hno.
Qed.

Lemma occurrences_present (s : string) : PStr s ∈ cells → 1 ≤ occurrences s cells.
Proof.
  intros Hin. unfold occurrences.
  assert (Hs : PStr s ∈ filter (fun x => x = PStr s) cells)
    by (by apply list_elem_of_filter).
  destruct (filter _ cells); [by apply elem_of_nil in Hs|simpl; lia].
Qed.

Lemma present_rows_sum :
  sum_list (map snd (map (fun s => (Some s, occurrences s cells))
                         (present_labels cells)))
  = length cells.
Proof.
  rewrite <- occurrences_total.
  unfold present_labels, sentiment_order; simpl.
  repeat case_bool_decide; simpl;
    repeat match goal with
           | H : PStr _ ∉ cells |- _ => rewrite (occurrences_absent _ H); clear H
           end; lia.
Qed.

End Aggregate.

Lemma sentiment_counts_labels (filtered : DataFrame) (cells : list pyval) :
  df_lookup "Sentiment" filtered = Some cells →
  Forall is_label cells →
  sentiment_counts filtered =
    Ret (map (fun s => (Some s, occurrences s cells)) (present_labels cells)).
Proof.
  intros Hcol Hlabels. unfold sentiment_counts, df_getitem, mbind, result_bind.
  rewrite Hcol. f_equal.
  rewrite (filtered_order_present cells Hlabels).
  apply (sorted_rows_eq cells Hlabels).
Qed.

Lemma df_wf_lookup (df : DataFrame) (c : string) (cells : list pyval) :
  df_wf df → df_lookup c df = Some cells → length cells = df_len df.
Proof.
  unfold df_wf. generalize (df_len df) as n. intros n Hwf.
  induction Hwf as [|[c' col] df Hc _ IH]; simpl; [done|].
  destruct (String.eqb c' c); [|done]. by intros [= <-].
Qed.

(** ** The filter *)

Lemma mask_select_none {A : Type} (mask : list bool) (cells : list A) :
  Forall (fun b => b = false) mask → mask_select mask cells = [].
Proof.
  intros Hmask. revert cells.
  induction Hmask as [|b mask -> _ IH]; intros [|x cells]; simpl; auto.
Qed.

Lemma df_lookup_filter (mask : list bool) (df : DataFrame) (c : string) :
  df_lookup c (df_filter mask df) = mask_select mask <$> df_lookup c df.
Proof.
  induction df as [|[c' cells] df IH]; simpl; [done|].
  by destruct (String.eqb c' c).
Qed.

Lemma df_columns_filter (mask : list bool) (df : DataFrame) :
  df_columns (df_filter mask df) = df_columns df.
Proof.
  unfold df_columns, df_filter. rewrite map_map. by apply map_ext.
Qed.

Lemma absent_product_mask (p : string) (products : list pyval) :
  PStr p ∉ products →
  Forall (fun b => b = false) (map (fun cell => series_eq cell (PStr p)) products).
Proof.
  intros Hno. apply Forall_map, Forall_forall. intros cell Hcell; simpl.
  destruct (series_eq cell (PStr p)) eqn:E; [|done].
  apply series_eq_str in E as ->. by destruct Hno.
Qed.

Lemma sentiment_counts_empty (filtered : DataFrame) :
  df_lookup "Sentiment" filtered = Some [] →
  sentiment_counts filtered = Ret [] ∧ chart_colors filtered = Ret [].
Proof.
  intros Hcol. unfold sentiment_counts, chart_colors, df_getitem, mbind, result_bind.
  by rewrite Hcol.
Qed.

(** ** Re-running the analysis *)

Lemma get_sentiment_returns (analyzer : pyval -> result (gmap string spec_float))
    (text : pyval) (w : world) :
  ∃ label w', get_sentiment analyzer text w = (Ret label, w').
Proof.
  unfold get_sentiment, cache_data.
  destruct (cache_lookup text (cache w)) as [[v shown]|]; [by eexists _, _|].
  rewrite get_sentiment_body_spec. by eexists _, _.
Qed.

Lemma analyze_sentiment_cache_ok (analyzer : pyval -> result (gmap string spec_float))
    (setitem_check : list pyval -> list pyval -> option exn)
    (w : world) :
  cache_ok analyzer (cache w) →
  cache_ok analyzer (cache (analyze_sentiment analyzer setitem_check w).2).
Proof.
  intros Hok.
  destruct (session_state w !! "df") as [df|] eqn:Hdf.
  - destruct (df_lookup "SUMMARY" df) as [summary|] eqn:Hsum.
    + rewrite (analyze_sentiment_run analyzer setitem_check w df summary Hok Hdf Hsum).
      destruct (df_loc_setitem setitem_check df "Sentiment" (labels_of analyzer summary));
        simpl; by apply cache_ok_after_all.
    + by rewrite (analyze_sentiment_no_summary analyzer setitem_check w df Hdf Hsum).
  - by rewrite (analyze_sentiment_no_df analyzer setitem_check w Hdf).
Qed.

Lemma analyze_sentiment_idempotent (analyzer : pyval -> result (gmap string spec_float))
    (setitem_check : list pyval -> list pyval -> option exn)
    (w : world) :
  cache_ok analyzer (cache w) →
  session_state
    (analyze_sentiment analyzer setitem_check
       (analyze_sentiment analyzer setitem_check w).2).2
  = session_state (analyze_sentiment analyzer setitem_check w).2.
Proof.
  intros Hok.
  pose proof (analyze_sentiment_cache_ok analyzer setitem_check w Hok) as Hok1.
  destruct (session_state w !! "df") as [df|] eqn:Hdf.
  - destruct (df_lookup "SUMMARY" df) as [summary|] eqn:Hsum.
    + rewrite (analyze_sentiment_run analyzer setitem_check w df summary Hok Hdf Hsum)
        in Hok1 |- *.
      destruct (df_loc_setitem_cases setitem_check df "Sentiment"
                  (labels_of analyzer summary)) as [Hset|(old & e & _ & _ & Hset)];
        rewrite Hset in Hok1 |- *; cbn [snd] in Hok1 |- *.
      * erewrite (analyze_sentiment_run analyzer setitem_check _
                    (df_setitem df "Sentiment" (labels_of analyzer summary)) summary);
          [ | exact Hok1
            | simpl; by rewrite lookup_insert_eq
            | by rewrite df_lookup_setitem_ne ].
        destruct (df_loc_setitem_cases setitem_check
                    (df_setitem df "Sentiment" (labels_of analyzer summary)) "Sentiment"
                    (labels_of analyzer summary)) as [Hset'|(old & e & _ & _ & Hset')];
          rewrite Hset'; simpl; [|done].
        by rewrite df_setitem_idem, insert_insert_eq.
      * erewrite (analyze_sentiment_run analyzer setitem_check _ df summary);
          [ | exact Hok1 | exact Hdf | exact Hsum ].
        by rewrite Hset.
    + rewrite (analyze_sentiment_no_summary analyzer setitem_check w df Hdf Hsum); simpl.
      by rewrite (analyze_sentiment_no_summary analyzer setitem_check _ df).
    - rewrite (analyze_sentiment_no_df analyzer setitem_check w Hdf); simpl.
      by rewrite (analyze_sentiment_no_df analyzer setitem_check).
Qed.

(** ** The invariant of the classifier's store *)

Lemma preserves_ret {A : Type} (a : A) : preserves (ret a).
Proof. by intros w. Qed.

Lemma preserves_lift {A : Type} (r : result A) : preserves (lift r).
Proof. by intros w. Qed.

Lemma preserves_render (e : element) : preserves (render e).
Proof. by intros w. Qed.

Lemma preserves_in_session (k : string) : preserves (in_session k).
Proof. by intros w. Qed.

Lemma preserves_get_session (k : string) : preserves (get_session k).
Proof. intros w. unfold get_session. by destruct (session_state w !! k). Qed.

Lemma preserves_bind {A B : Type} (m : M A) (k : A -> M B) :
  preserves m → (∀ a, preserves (k a)) → preserves (m ≫= k).
Proof.
  intros Hm Hk w. unfold mbind, M_bind.
  destruct (Hm w) as (Hs & Hc & Ht).
  destruct (m w) as [[a|e] w']; simpl in *.
  - destruct (Hk a w') as (Hs' & Hc' & Ht'). by rewrite Hs', Hc', Ht'.
  - done.
Qed.

Lemma display_preserves (selectbox : list pyval -> pyval) :
  preserves (display selectbox).
Proof.
  unfold display.
  apply preserves_bind; [apply preserves_in_session|]. intros [|]; [|apply preserves_ret].
  apply preserves_bind; [apply preserves_render|]. intros _.
  apply preserves_bind; [apply preserves_get_session|]. intros df.
  apply preserves_bind; [apply preserves_lift|]. intros products.
  apply preserves_bind; [apply preserves_render|]. intros _.
  apply preserves_bind; [apply preserves_lift|]. intros filtered.
  apply preserves_bind; [apply preserves_render|]. intros _.
  destruct (df_has_column "Sentiment" df); [|apply preserves_ret].
  apply preserves_bind; [apply preserves_render|]. intros _.
  apply preserves_bind; [apply preserves_lift|]. intros bars.
  apply preserves_bind; [apply preserves_lift|]. intros colors.
  apply preserves_render.
Qed.

Lemma load_dataset_cache (current_dir : string) (files : gmap string string)
    (parse_csv : string -> result DataFrame) (w : world) :
  cache (load_dataset current_dir files parse_csv w).2 = cache w.
Proof.
  unfold load_dataset, try_except, mbind, M_bind, pd_read_csv.
  destruct (files !! get_dataset_path current_dir) as [contents|]; [|done].
  unfold lift. destruct (parse_csv contents) as [df|e]; [done|by destruct e].
Qed.

(** Whatever is clicked, a run of the script keeps the store consistent. *)
Lemma app_cache_ok (analyzer : pyval -> result (gmap string spec_float))
    (setitem_check : list pyval -> list pyval -> option exn)
    (current_dir : string) (files : gmap string string)
    (parse_csv : string -> result DataFrame) (selectbox : list pyval -> pyval)
    (c : click) (w : world) :
  cache_ok analyzer (cache w) →
  cache_ok analyzer
    (cache (app analyzer setitem_check current_dir files parse_csv selectbox c w).2).
Proof.
  intros Hok. unfold app.
  unfold mbind at 1, M_bind at 1. unfold render at 1.
  unfold mbind at 1, M_bind at 1. unfold render at 1.
  set (w2 := World _ _ _ _).
  assert (Hok2 : cache_ok analyzer (cache w2)) by done.
  clearbody w2. clear w Hok.
  unfold mbind at 1, M_bind at 1.
  assert (Hload : ∃ r w3,
    (match c with
     | LoadDataset => load_dataset current_dir files parse_csv
     | _ => ret ()
     end) w2 = (r, w3) ∧ cache_ok analyzer (cache w3)).
  { destruct c; try (by eexists _, _).
    pose proof (load_dataset_cache current_dir files parse_csv w2) as Hc.
    destruct (load_dataset current_dir files parse_csv w2) as [r w3].
    exists r, w3. simpl in Hc. by rewrite Hc. }
  destruct Hload as (r & w3 & -> & Hok3).
  destruct r as [[]|e]; [|done].
  unfold mbind at 1, M_bind at 1.
  assert (Han : ∃ r w4,
    (match c with
     | AnalyzeSentiment => analyze_sentiment analyzer setitem_check
     | _ => ret ()
     end) w3 = (r, w4) ∧ cache_ok analyzer (cache w4)).
  { destruct c; try (by eexists _, _).
    pose proof (analyze_sentiment_cache_ok analyzer setitem_check w3 Hok3) as Hc.
    destruct (analyze_sentiment analyzer setitem_check w3) as [r w4]. by exists r, w4. }
  destruct Han as (r & w4 & -> & Hok4).
  destruct r as [[]|e]; [|done].
  destruct (display_preserves selectbox w4) as (_ & -> & _). done.
Qed.

(** Every world the script is run in has a consistent store: the hypothesis
    [cache_ok] of the properties below holds throughout a session. *)
Lemma reachable_cache_ok (analyzer : pyval -> result (gmap string spec_float))
    (w : world) :
  reachable analyzer w → cache_ok analyzer (cache w).
Proof.
  induction 1 as [|setitem_check w current_dir files parse_csv selectbox c _ IH]; simpl.
  - apply cache_ok_nil.
  - by apply app_cache_ok.
Qed.

(** ** The filtered frame keeps the shape the chart needs *)

Lemma mask_select_length {A B : Type} (mask : list bool) (xs : list A) (ys : list B) :
  length xs = length ys →
  length (mask_select mask xs) = length (mask_select mask ys).
Proof.
  revert xs ys. induction mask as [|b mask IH]; intros [|x xs] [|y ys]; simpl;
    try done.
  intros [= Hlen]. destruct b; simpl; by rewrite (IH xs ys Hlen).
Qed.

Lemma df_filter_wf (mask : list bool) (df : DataFrame) :
  df_wf df → df_wf (df_filter mask df).
Proof.
  unfold df_wf. destruct df as [|[c0 cells0] df]; [done|]. simpl.
  intros Hwf. apply Forall_cons in Hwf as [_ Hwf].
  apply Forall_cons. split; [done|].
  unfold df_filter. apply Forall_map.
  eapply Forall_impl; [exact Hwf|].
  intros [c cells] Hc; simpl in *. by apply mask_select_length.
Qed.

Lemma mask_select_Forall {A : Type} (P : A -> Prop) (mask : list bool) (xs : list A) :
  Forall P xs → Forall P (mask_select mask xs).
Proof.
  intros Hxs. revert mask.
  induction Hxs as [|x xs Hx _ IH]; intros [|[] mask]; simpl; auto.
Qed.

(** Whatever is selected in the dropdown, a labelled dataset stays labelled
    and well formed under the filter, so the chart of the selection is in
    canonical order too. *)
Lemma sentiment_counts_after_filter (df filtered : DataFrame) (product : pyval)
    (cells : list pyval) :
  df_wf df →
  df_lookup "Sentiment" df = Some cells →
  Forall is_label cells →
  filtered_df df product = Ret filtered →
  ∃ cells',
    df_lookup "Sentiment" filtered = Some cells' ∧
    sentiment_counts filtered =
      Ret (map (fun s => (Some s, occurrences s cells')) (present_labels cells')) ∧
    sum_list (map snd (map (fun s => (Some s, occurrences s cells'))
                           (present_labels cells'))) = df_len filtered.
Proof.
  intros Hwf Hcol Hlabels. unfold filtered_df.
  destruct (py_ne_str product "All Products").
  - unfold df_getitem, mbind, result_bind.
    destruct (df_lookup "PRODUCT" df) as [products|]; [|done].
    intros [= <-].
    set (mask := map (fun cell => series_eq cell product) products).
    assert (Hcol' : df_lookup "Sentiment" (df_filter mask df)
                    = Some (mask_select mask cells))
      by (by rewrite df_lookup_filter, Hcol).
    assert (Hlabels' : Forall is_label (mask_select mask cells))
      by (by apply mask_select_Forall).
    exists (mask_select mask cells). split; [done|]. split.
    + by apply sentiment_counts_labels.
    + rewrite (present_rows_sum _ Hlabels').
      apply (df_wf_lookup _ "Sentiment"); [by apply df_filter_wf|done].
  - intros [= <-]. exists cells. split; [done|]. split.
    + by apply sentiment_counts_labels.
    + rewrite (present_rows_sum _ Hlabels). by apply (df_wf_lookup _ "Sentiment").
Qed.

(** ** The end-to-end scenario *)

(** Load, then analyse: the four rows of the example are labelled Positive,
    Negative, Neutral and, for the missing summary, Neutral; the scorer saw
    the three strings only. *)
Example load_then_analyze :
  let w1 := (app demo_analyzer demo_setitem_check "/srv/app" demo_files demo_parse
               (fun options => PStr "All Products") LoadDataset demo_world).2 in
  let w2 := (app demo_analyzer demo_setitem_check "/srv/app" demo_files demo_parse
               (fun options => PStr "All Products") AnalyzeSentiment
               (World (session_state w1) [] (cache w1) (scored w1))).2 in
  (session_state w2 !! "df") ≫= df_lookup "Sentiment"
    = Some [PStr "Positive"; PStr "Negative"; PStr "Neutral"; PStr "Neutral"] ∧
  scored w2 = [PStr "great product"; PStr "terrible experience"; PStr "it's fine"].
Proof. by vm_compute. Qed.

(** Three Positive, no Negative, two Neutral rows: two bars, Neutral first. *)
Example chart_of_labeled :
  sentiment_counts demo_labeled = Ret [(Some "Neutral", 2); (Some "Positive", 3)] ∧
  chart_colors demo_labeled = Ret [("Neutral", "lightgray"); ("Positive", "green")].
Proof. by vm_compute. Qed.

(** ** The classifier: thresholds, missing text, failures, determinism *)

(** C1.  A text that reaches the scorer (it is neither falsy nor missing) and
    whose compound polarity score is at least 0.05 is labelled Positive; at
    most -0.05, Negative; strictly between the two, Neutral.  At the
    boundaries: exactly 0.05 gives Positive, exactly -0.05 gives Negative and
    0.0 gives Neutral.  The scores are binary64 values and 0.05 is the float
    literal of the script. *)
Theorem get_sentiment_thresholds
    (analyzer : pyval -> result (gmap string spec_float))
    (text : pyval) (w : world)
    (scores : gmap string spec_float) (compound : spec_float) :
  cache_ok analyzer (cache w) →
  py_not text = false →
  pd_isna text = false →
  analyzer text = Ret scores →
  scores !! "compound" = Some compound →
  (float_ge compound f_0_05 = true →
     (get_sentiment analyzer text w).1 = Ret "Positive") ∧
  (float_le compound f_neg_0_05 = true →
     (get_sentiment analyzer text w).1 = Ret "Negative") ∧
  (float_lt f_neg_0_05 compound = true → float_lt compound f_0_05 = true →
     (get_sentiment analyzer text w).1 = Ret "Neutral") ∧
  (compound = f_0_05 → (get_sentiment analyzer text w).1 = Ret "Positive") ∧
  (compound = f_neg_0_05 → (get_sentiment analyzer text w).1 = Ret "Negative") ∧
  (compound = f_0 → (get_sentiment analyzer text w).1 = Ret "Neutral").
Proof.
  intros Hok Hnot Hna Hscores Hcompound.
  rewrite (get_sentiment_spec analyzer text w Hok). cbn [fst].
  unfold label_of.
  rewrite (guard_false_inv text Hnot Hna), Hscores, Hcompound.
  repeat apply conj.
  - intros H. by rewrite (threshold_positive compound H).
  - intros H. by rewrite (threshold_negative compound H).
  - intros Hlo Hhi. by rewrite (threshold_neutral compound Hlo Hhi).
  - by intros ->.
  - by intros ->.
  - by intros ->.
Qed.

Lemma get_sentiment_thresholds_witness :
  (get_sentiment demo_analyzer (PStr "great product") demo_world).1 = Ret "Positive" ∧
  (get_sentiment demo_analyzer (PStr "terrible experience") demo_world).1 = Ret "Negative" ∧
  (get_sentiment demo_analyzer (PStr "slightly good") demo_world).1 = Ret "Neutral" ∧
  (get_sentiment demo_analyzer (PStr "on the line") demo_world).1 = Ret "Positive" ∧
  (get_sentiment demo_analyzer (PStr "under the line") demo_world).1 = Ret "Negative".
Proof.
  repeat apply conj.
  - refine (proj1 (get_sentiment_thresholds demo_analyzer (PStr "great product")
                     demo_world
                     (demo_scores (S754_finite false 5628598814287646 (-53)))
                     (S754_finite false 5628598814287646 (-53)) _ _ _ _ _) _);
      [apply cache_ok_nil | reflexivity..].
  - refine (proj1 (proj2 (get_sentiment_thresholds demo_analyzer
                     (PStr "terrible experience") demo_world
                     (demo_scores (S754_finite true 8587463769470062 (-54)))
                     (S754_finite true 8587463769470062 (-54)) _ _ _ _ _)) _);
      [apply cache_ok_nil | reflexivity..].
  - refine (proj1 (proj2 (proj2 (get_sentiment_thresholds demo_analyzer
                     (PStr "slightly good") demo_world
                     (demo_scores (S754_finite false 5764607523034235 (-57)))
                     (S754_finite false 5764607523034235 (-57)) _ _ _ _ _))) _ _);
      [apply cache_ok_nil | reflexivity..].
  - refine (proj1 (proj2 (proj2 (proj2 (get_sentiment_thresholds demo_analyzer
                     (PStr "on the line") demo_world
                     (demo_scores f_0_05) f_0_05 _ _ _ _ _)))) _);
      [apply cache_ok_nil | reflexivity..].
  - refine (proj1 (proj2 (proj2 (proj2 (proj2 (get_sentiment_thresholds demo_analyzer
                     (PStr "under the line") demo_world
                     (demo_scores f_neg_0_05) f_neg_0_05 _ _ _ _ _))))) _);
      [apply cache_ok_nil | reflexivity..].
Defined.

(** C3.  For an absent or null text ([None], or the NaN of a missing cell)
    [get_sentiment] returns Neutral at once: the scorer is not invoked,
    nothing is rendered and the session state is untouched. *)
Theorem get_sentiment_null
    (analyzer : pyval -> result (gmap string spec_float))
    (text : pyval) (w : world) :
  cache_ok analyzer (cache w) →
  text = PNone ∨ text = NaN →
  ∃ w', get_sentiment analyzer text w = (Ret "Neutral", w') ∧
        scored w' = scored w ∧
        screen w' = screen w ∧
        session_state w' = session_state w.
Proof.
  intros Hok Hnull.
  exists (world_after analyzer text w).
  rewrite (get_sentiment_spec analyzer text w Hok).
  assert (Hguard : py_not text || pd_isna text = true)
    by (by destruct Hnull as [-> | ->]).
  unfold world_after, label_of, shown_of, invoked_on. rewrite Hguard.
  destruct (cache_lookup text (cache w)); simpl; by rewrite !app_nil_r.
Qed.

Lemma get_sentiment_null_witness :
  ∃ w', get_sentiment demo_analyzer NaN demo_world = (Ret "Neutral", w') ∧
        scored w' = [] ∧ screen w' = [] ∧ session_state w' = ∅.
Proof.
  apply (get_sentiment_null demo_analyzer NaN demo_world);
    [apply cache_ok_nil | right; reflexivity].
Defined.

(** C7.  When the scorer raises on a text it is given, [get_sentiment]
    catches the exception, reports it with [st.error] and returns Neutral;
    and no call of [get_sentiment], whatever the scorer does, propagates an
    exception, so that a column is labelled to its end. *)
Theorem get_sentiment_scorer_error
    (analyzer : pyval -> result (gmap string spec_float))
    (text : pyval) (w : world) (e : exn) :
  cache_ok analyzer (cache w) →
  py_not text = false →
  pd_isna text = false →
  analyzer text = Raise e →
  (∃ w', get_sentiment analyzer text w = (Ret "Neutral", w') ∧
         screen w' = screen w ++ [st_error ("VADER model error: " +:+ exn_str e)] ∧
         session_state w' = session_state w) ∧
  (∀ (text' : pyval) (w0 : world),
     ∃ label w', get_sentiment analyzer text' w0 = (Ret label, w')) ∧
  (∀ cells : list pyval,
     ∃ labels w', series_apply (get_sentiment analyzer) cells w = (Ret labels, w') ∧
                  length labels = length cells).
Proof.
  intros Hok Hnot Hna Hraise. repeat split.
  - exists (world_after analyzer text w).
    rewrite (get_sentiment_spec analyzer text w Hok).
    rewrite screen_after, session_state_after.
    unfold label_of, shown_of.
    by rewrite (guard_false_inv text Hnot Hna), Hraise.
  - intros text' w0. apply get_sentiment_returns.
  - intros cells. eexists _, _.
    rewrite (series_apply_spec analyzer cells w Hok).
    split; [reflexivity|]. by rewrite length_map.
Qed.

Lemma get_sentiment_scorer_error_witness :
  ∃ w', get_sentiment demo_analyzer (PFloat (S754_finite false 5 0)) demo_world
          = (Ret "Neutral", w') ∧
        screen w' = [st_error "VADER model error: expected a string"] ∧
        session_state w' = ∅.
Proof.
  apply (get_sentiment_scorer_error demo_analyzer (PFloat (S754_finite false 5 0))
           demo_world (OtherError "TypeError" "expected a string"));
    [apply cache_ok_nil | reflexivity..].
Defined.

(** C8.  [get_sentiment] is deterministic and idempotent: a second call on
    the same string returns the label of the first, the label does not
    depend on the state the call is made in, and analysing an already
    labelled dataset again leaves the session state, and so every label,
    as the first analysis left it. *)
Theorem get_sentiment_deterministic
    (analyzer : pyval -> result (gmap string spec_float))
    (setitem_check : list pyval -> list pyval -> option exn) (w : world) :
  cache_ok analyzer (cache w) →
  (∀ s : string, ∃ label w1 w2,
     get_sentiment analyzer (PStr s) w = (Ret label, w1) ∧
     get_sentiment analyzer (PStr s) w1 = (Ret label, w2)) ∧
  (∀ (s : string) (w' : world), cache_ok analyzer (cache w') →
     (get_sentiment analyzer (PStr s) w').1 = (get_sentiment analyzer (PStr s) w).1) ∧
  session_state
    (analyze_sentiment analyzer setitem_check
       (analyze_sentiment analyzer setitem_check w).2).2
    = session_state (analyze_sentiment analyzer setitem_check w).2.
Proof.
  intros Hok. repeat split.
  - intros s. eexists _, _, _. split.
    + apply (get_sentiment_spec analyzer (PStr s) w Hok).
    + apply get_sentiment_spec. by apply cache_ok_after.
  - intros s w' Hok'.
    by rewrite (get_sentiment_spec analyzer _ w Hok),
               (get_sentiment_spec analyzer _ w' Hok').
  - by apply analyze_sentiment_idempotent.
Qed.

Lemma get_sentiment_deterministic_witness :
  session_state (analyze_sentiment demo_analyzer demo_setitem_check
                   (analyze_sentiment demo_analyzer demo_setitem_check demo_loaded_world).2).2
  = session_state (analyze_sentiment demo_analyzer demo_setitem_check demo_loaded_world).2.
Proof.
  apply (get_sentiment_deterministic demo_analyzer demo_setitem_check demo_loaded_world).
  apply cache_ok_nil.
Defined.

(** C10.  [get_sentiment] is total: on every value a cell can hold ([None],
    any string, any float) it returns, and what it returns is one of
    Positive, Negative, Neutral.  The empty string, which
    is not null, is treated like a missing text: Neutral, without scoring. *)
Theorem get_sentiment_total
    (analyzer : pyval -> result (gmap string spec_float))
    (text : pyval) (w : world) :
  cache_ok analyzer (cache w) →
  (∃ label w', get_sentiment analyzer text w = (Ret label, w') ∧
               label ∈ ["Positive"; "Negative"; "Neutral"]) ∧
  (∃ w', get_sentiment analyzer (PStr "") w = (Ret "Neutral", w') ∧
         scored w' = scored w).
Proof.
  intros Hok. split.
  - eexists _, _. split; [apply (get_sentiment_spec analyzer text w Hok)|].
    apply label_of_label.
  - exists (world_after analyzer (PStr "") w).
    rewrite (get_sentiment_spec analyzer (PStr "") w Hok).
    unfold world_after, label_of, shown_of, invoked_on; simpl.
    destruct (cache_lookup (PStr "") (cache w)); simpl; by rewrite ?app_nil_r.
Qed.

Lemma get_sentiment_total_witness :
  (∃ label w', get_sentiment demo_analyzer (PStr "it's fine") demo_world = (Ret label, w') ∧
               label ∈ ["Positive"; "Negative"; "Neutral"]) ∧
  (∃ w', get_sentiment demo_analyzer (PStr "") demo_world = (Ret "Neutral", w') ∧
         scored w' = []).
Proof.
  apply (get_sentiment_total demo_analyzer (PStr "it's fine") demo_world).
  apply cache_ok_nil.
Defined.

(** ** The loader and the analysis button *)

(** C4.  With a dataset in the session state, a load whose path names no
    existing file makes [pd.read_csv] raise [FileNotFoundError]; the handler
    surfaces it as the error message and the load is abandoned: the session
    state, and with it the dataset loaded before, is unchanged. *)
Theorem load_dataset_not_found
    (current_dir : string) (files : gmap string string)
    (parse_csv : string -> result DataFrame)
    (w : world) (previous : DataFrame) :
  session_state w !! "df" = Some previous →
  files !! get_dataset_path current_dir = None →
  (∃ msg, (pd_read_csv files parse_csv (get_dataset_path current_dir) w).1
            = Raise (FileNotFoundError msg)) ∧
  ∃ w', load_dataset current_dir files parse_csv w = (Ret tt, w') ∧
        session_state w' = session_state w ∧
        session_state w' !! "df" = Some previous ∧
        screen w' = screen w
                      ++ [st_error "❌ Dataset not found. Please check the file path."].
Proof.
  intros Hprev Hno. split.
  - unfold pd_read_csv. rewrite Hno. by eexists.
  - eexists. rewrite (load_dataset_missing current_dir files parse_csv w Hno).
    by repeat apply conj.
Qed.

Lemma load_dataset_not_found_witness :
  ∃ w', load_dataset "/srv/app" ∅ demo_parse demo_loaded_world = (Ret tt, w') ∧
        session_state w' = session_state demo_loaded_world ∧
        session_state w' !! "df" = Some demo_df ∧
        screen w' = [st_error "❌ Dataset not found. Please check the file path."].
Proof.
  apply (load_dataset_not_found "/srv/app" ∅ demo_parse demo_loaded_world demo_df);
    reflexivity.
Defined.

(** C6.  On a successful load the handler keeps the first 10 rows of the
    table that was read (every column cut to its first 10 cells, the columns
    themselves unchanged) and stores the result under "df", whatever was
    stored there before. *)
Theorem load_dataset_success
    (current_dir : string) (files : gmap string string)
    (parse_csv : string -> result DataFrame)
    (w : world) (contents : string) (df : DataFrame) :
  files !! get_dataset_path current_dir = Some contents →
  parse_csv contents = Ret df →
  ∃ w', load_dataset current_dir files parse_csv w = (Ret tt, w') ∧
        session_state w' = <["df" := df_head 10 df]> (session_state w) ∧
        session_state w' !! "df" = Some (df_head 10 df) ∧
        df_columns (df_head 10 df) = df_columns df ∧
        (∀ c cells, df_lookup c df = Some cells →
                    df_lookup c (df_head 10 df) = Some (take 10 cells)) ∧
        (df_wf df → df_wf (df_head 10 df) ∧ df_len (df_head 10 df) = min 10 (df_len df)).
Proof.
  intros Hfile Hparse. eexists.
  rewrite (load_dataset_ok current_dir files parse_csv w contents df Hfile Hparse).
  repeat apply conj.
  - reflexivity.
  - reflexivity.
  - apply lookup_insert_eq.
  - apply df_columns_head.
  - intros c cells Hc. by rewrite df_lookup_head, Hc.
  - intros Hwf. split; [by apply df_head_wf|].
    destruct df as [|[c cells] df']; [done|]. apply length_take.
Qed.

Lemma load_dataset_success_witness :
  session_state demo_loaded_world !! "df" = Some demo_df ∧
  df_len demo_long_df = 12 ∧
  ∃ w', load_dataset "/srv/app" demo_long_files demo_long_parse demo_loaded_world
          = (Ret tt, w') ∧
        session_state w' !! "df" =
          Some [("PRODUCT", [PStr "Widget"; PStr "Gadget"; PStr "Widget"; PStr "Gizmo";
                             PStr "Gadget"; PStr "Widget"; PStr "Gizmo"; PStr "Gadget";
                             PStr "Widget"; PStr "Gizmo"]);
                ("SUMMARY", [PStr "great product"; PStr "terrible experience";
                             PStr "it's fine"; PStr "great product"; PStr "slightly good";
                             PStr "on the line"; PStr "under the line";
                             PStr "nothing special"; PStr "as described";
                             PStr "tenth review"])] ∧
        df_len (df_head 10 demo_long_df) = 10.
Proof.
  destruct (load_dataset_success "/srv/app" demo_long_files demo_long_parse
              demo_loaded_world "twelve reviews" demo_long_df)
    as (w' & Hload & _ & Hdf & _ & _ & Hwf); [reflexivity | reflexivity |].
  split; [reflexivity|]. split; [reflexivity|].
  exists w'. split; [exact Hload|]. split.
  - refine (eq_trans Hdf _). vm_compute. reflexivity.
  - destruct Hwf as [_ Hlen]; [repeat constructor|]. exact Hlen.
Defined.

(** C9.  Analyze Sentiment without a loaded dataset shows the warning and
    does nothing else: the session state, the store of the classifier and
    the trace of scorer calls are unchanged. *)
Theorem analyze_without_dataset
    (analyzer : pyval -> result (gmap string spec_float))
    (setitem_check : list pyval -> list pyval -> option exn) (w : world) :
  session_state w !! "df" = None →
  ∃ w', analyze_sentiment analyzer setitem_check w = (Ret tt, w') ∧
        session_state w' = session_state w ∧
        cache w' = cache w ∧
        scored w' = scored w ∧
        screen w' = screen w ++ [st_warning "⚠️ Please load the dataset first."].
Proof.
  intros Hno. eexists.
  rewrite (analyze_sentiment_no_df analyzer setitem_check w Hno).
  by repeat apply conj.
Qed.

Lemma analyze_without_dataset_witness :
  ∃ w', analyze_sentiment demo_analyzer demo_setitem_check demo_world = (Ret tt, w') ∧
        session_state w' = ∅ ∧ cache w' = [] ∧ scored w' = [] ∧
        screen w' = [st_warning "⚠️ Please load the dataset first."].
Proof.
  apply (analyze_without_dataset demo_analyzer demo_setitem_check demo_world). reflexivity.
Defined.

(** ** The filter and the chart *)

(** C2.  For a (filtered) dataset whose rows all carry one of the three
    labels, the frame handed to the chart lists the labels that occur in the
    canonical sequence Negative, Neutral, Positive, each with the number of
    rows that carry it; a label that does not occur has no row; every count
    is at least 1 and the counts add up to the number of rows. *)
Theorem sentiment_counts_canonical (filtered : DataFrame) (cells : list pyval) :
  df_wf filtered →
  df_lookup "Sentiment" filtered = Some cells →
  Forall is_label cells →
  ∃ bars,
    sentiment_counts filtered = Ret bars ∧
    bars = map (fun s => (Some s, occurrences s cells)) (present_labels cells) ∧
    map fst bars
      = map Some (List.filter (fun s => bool_decide (PStr s ∈ cells))
                              ["Negative"; "Neutral"; "Positive"]) ∧
    Forall (fun row => 1 ≤ snd row) bars ∧
    sum_list (map snd bars) = df_len filtered.
Proof.
  intros Hwf Hcol Hlabels. eexists.
  split; [apply (sentiment_counts_labels filtered cells Hcol Hlabels)|].
  repeat apply conj.
  - reflexivity.
  - rewrite map_map; simpl. by rewrite <- (map_map id Some), map_id.
  - apply Forall_map, Forall_forall. intros s Hs; simpl.
    apply occurrences_present. by apply present_labels_spec in Hs as [_ ?].
  - rewrite (present_rows_sum cells Hlabels).
    by apply (df_wf_lookup filtered "Sentiment").
Qed.

Lemma sentiment_counts_canonical_witness :
  sentiment_counts demo_labeled = Ret [(Some "Neutral", 2); (Some "Positive", 3)].
Proof.
  destruct (sentiment_counts_canonical demo_labeled
              [PStr "Positive"; PStr "Neutral"; PStr "Positive"; PStr "Neutral";
               PStr "Positive"]) as (bars & -> & -> & _).
  - repeat constructor.
  - reflexivity.
  - repeat (apply Forall_cons; split;
              [eexists; split; [|reflexivity]; apply (bool_decide_unpack _);
               vm_compute; reflexivity|]).
    apply Forall_nil_2.
  - reflexivity.
Defined.

(** C5.  For a product identifier that does not occur in the PRODUCT
    column, filtering raises nothing and yields the empty set of rows (every
    column is empty), and the aggregate the script computes from that set,
    which it does when the dataset has a Sentiment column (line 81), is
    empty.  A product identifier is any selection but "All Products", the
    entry of the dropdown that stands for no filter. *)
Theorem filter_absent_product (df : DataFrame) (p : string) (products : list pyval) :
  p ≠ "All Products" →
  df_lookup "PRODUCT" df = Some products →
  PStr p ∉ products →
  ∃ filtered,
    filtered_df df (PStr p) = Ret filtered ∧
    df_columns filtered = df_columns df ∧
    Forall (fun col => snd col = []) filtered ∧
    df_len filtered = 0 ∧
    (df_has_column "Sentiment" df = true →
       sentiment_counts filtered = Ret [] ∧ chart_colors filtered = Ret []).
Proof.
  intros Hp Hcol Hno.
  pose proof (absent_product_mask p products Hno) as Hmask.
  eexists. unfold filtered_df, py_ne_str.
  rewrite (proj2 (String.eqb_neq p "All Products") Hp); simpl.
  unfold df_getitem, mbind, result_bind. rewrite Hcol.
  split; [reflexivity|]. repeat apply conj.
  - apply df_columns_filter.
  - unfold df_filter. apply Forall_map, Forall_forall. intros [c cells] _; simpl.
    by apply mask_select_none.
  - destruct df as [|[c cells] df']; simpl; [done|].
    by rewrite mask_select_none.
  - unfold df_has_column. intros Hsent.
    destruct (df_lookup "Sentiment" df) as [cells|] eqn:E; [|done].
    apply sentiment_counts_empty.
    rewrite df_lookup_filter, E; simpl. by rewrite mask_select_none.
Qed.

Lemma filter_absent_product_witness :
  ∃ filtered,
    filtered_df demo_labeled (PStr "Gizmo") = Ret filtered ∧
    df_len filtered = 0 ∧
    sentiment_counts filtered = Ret [].
Proof.
  destruct (filter_absent_product demo_labeled "Gizmo"
              [PStr "Widget"; PStr "Gadget"; PStr "Widget"; PStr "Widget"; PStr "Gadget"])
    as (filtered & Hf & _ & _ & Hlen & Hagg).
  - apply (bool_decide_unpack _). vm_compute. reflexivity.
  - reflexivity.
  - apply (bool_decide_unpack _). vm_compute. reflexivity.
  - exists filtered. split; [exact Hf|]. split; [exact Hlen|].
    apply Hagg. reflexivity.
Defined.

(** * Further properties of the script *)

(** ** The loader beyond the two cases above *)

Lemma load_dataset_cases (current_dir : string) (files : gmap string string)
    (parse_csv : string -> result DataFrame) (w : world) :
  ∃ (e : element) (ss : gmap string DataFrame),
    load_dataset current_dir files parse_csv w
      = (Ret tt, World ss (screen w ++ [e]) (cache w) (scored w)) ∧
    (ss = session_state w ∨ ∃ df, ss = <["df" := df_head 10 df]> (session_state w)).
Proof.
  unfold load_dataset, try_except, mbind, M_bind, pd_read_csv.
  destruct (files !! get_dataset_path current_dir) as [contents|].
  - unfold lift. destruct (parse_csv contents) as [df|e].
    + eexists _, _. split; [reflexivity|]. right. by exists df.
    + destruct e; eexists _, _; (split; [reflexivity|by left]).
  - eexists _, _. split; [reflexivity|by left].
Qed.

(** X1.  When the file exists and [pd.read_csv] raises anything other than
    [FileNotFoundError], the handler shows the "Unexpected error" message
    with the text of the exception and leaves the session state as it was. *)
Theorem load_dataset_unexpected_error
    (current_dir : string) (files : gmap string string)
    (parse_csv : string -> result DataFrame)
    (w : world) (contents : string) (e : exn) :
  files !! get_dataset_path current_dir = Some contents →
  parse_csv contents = Raise e →
  (∀ msg, e ≠ FileNotFoundError msg) →
  load_dataset current_dir files parse_csv w =
    (Ret tt,
     World (session_state w)
           (screen w ++ [st_error ("⚠️ Unexpected error loading dataset: " +:+ exn_str e)])
           (cache w) (scored w)).
Proof.
  intros Hfile Hparse Hclass.
  unfold load_dataset, try_except, mbind, M_bind, pd_read_csv.
  rewrite Hfile. unfold lift. rewrite Hparse.
  destruct e as [msg| |]; [by destruct (Hclass msg)|done..].
Qed.

Lemma load_dataset_unexpected_error_witness :
  load_dataset "/srv/app" demo_bad_files demo_parse demo_loaded_world =
    (Ret tt,
     World (session_state demo_loaded_world)
           [st_error "⚠️ Unexpected error loading dataset: Error tokenizing data"]
           [] []).
Proof.
  apply (load_dataset_unexpected_error "/srv/app" demo_bad_files demo_parse
           demo_loaded_world "PRODUCT;SUMMARY"
           (OtherError "ParserError" "Error tokenizing data"));
    [reflexivity | reflexivity | intros msg; discriminate].
Defined.

(** X2.  The load handler never lets an exception out, renders exactly one
    message, never reaches the classifier (its store and the trace of scorer
    calls are unchanged) and touches no key of the session state but "df". *)
Theorem load_dataset_never_raises
    (current_dir : string) (files : gmap string string)
    (parse_csv : string -> result DataFrame) (w : world) :
  ∃ w', load_dataset current_dir files parse_csv w = (Ret tt, w') ∧
        cache w' = cache w ∧
        scored w' = scored w ∧
        (∃ e, screen w' = screen w ++ [e]) ∧
        (∀ k, k ≠ "df" → session_state w' !! k = session_state w !! k).
Proof.
  destruct (load_dataset_cases current_dir files parse_csv w)
    as (e & ss & -> & Hss).
  eexists. split; [reflexivity|]. simpl. repeat apply conj; try done.
  - by exists e.
  - intros k Hk. destruct Hss as [-> | [df ->]]; [done|].
    by rewrite lookup_insert_ne.
Qed.

(** X3.  The stored preview is bounded: after a successful load no column
    holds more than 10 cells, and a well-formed table of at most 10 rows is
    stored exactly as it was read. *)
Theorem load_dataset_preview_bound
    (current_dir : string) (files : gmap string string)
    (parse_csv : string -> result DataFrame)
    (w : world) (contents : string) (df : DataFrame) :
  files !! get_dataset_path current_dir = Some contents →
  parse_csv contents = Ret df →
  ∃ stored,
    session_state (load_dataset current_dir files parse_csv w).2 !! "df" = Some stored ∧
    Forall (fun col => length (snd col) ≤ 10) stored ∧
    df_len stored ≤ 10 ∧
    (df_wf df → df_len df ≤ 10 → stored = df).
Proof.
  intros Hfile Hparse.
  rewrite (load_dataset_ok current_dir files parse_csv w contents df Hfile Hparse).
  exists (df_head 10 df). simpl. repeat apply conj.
  - apply lookup_insert_eq.
  - unfold df_head. apply Forall_map, Forall_forall. intros [c cells] _; simpl.
    rewrite length_take. lia.
  - destruct df as [|[c cells] df']; simpl; [lia|]. rewrite length_take. lia.
  - unfold df_wf, df_head. intros Hwf Hlen.
    induction Hwf as [|[c cells] l Hc _ IH]; simpl; [done|].
    simpl in Hc. rewrite take_ge by lia. by rewrite IH.
Qed.

Lemma load_dataset_preview_bound_witness :
  ∃ stored,
    session_state (load_dataset "/srv/app" demo_files demo_parse demo_world).2 !! "df"
      = Some stored ∧
    df_len stored ≤ 10 ∧ stored = demo_df.
Proof.
  destruct (load_dataset_preview_bound "/srv/app" demo_files demo_parse demo_world
              "PRODUCT,SUMMARY" demo_df)
    as (stored & Hdf & _ & Hlen & Hwhole); [reflexivity | reflexivity |].
  exists stored. split; [exact Hdf|]. split; [exact Hlen|].
  apply Hwhole; [repeat constructor | vm_compute; lia].
Defined.

(** ** The analysis button beyond the two cases above *)

Lemma get_sentiment_frame (analyzer : pyval -> result (gmap string spec_float))
    (text : pyval) (w : world) :
  ∃ label w', get_sentiment analyzer text w = (Ret label, w') ∧
              session_state w' = session_state w.
Proof.
  unfold get_sentiment, cache_data.
  destruct (cache_lookup text (cache w)) as [[v shown]|]; [by eexists _, _|].
  rewrite get_sentiment_body_spec. by eexists _, _.
Qed.

Lemma series_apply_returns (analyzer : pyval -> result (gmap string spec_float))
    (cells : list pyval) (w : world) :
  ∃ labels w', series_apply (get_sentiment analyzer) cells w = (Ret labels, w') ∧
               session_state w' = session_state w.
Proof.
  revert w. induction cells as [|x cells IH]; intros w; simpl.
  - by eexists _, _.
  - unfold mbind, M_bind at 1.
    destruct (get_sentiment_frame analyzer x w) as (label & w1 & -> & Hs1).
    unfold mbind, M_bind at 1.
    destruct (IH w1) as (labels & w2 & -> & Hs2).
    eexists _, _. split; [reflexivity|]. by rewrite Hs2.
Qed.

Lemma df_len_setitem (df : DataFrame) (c : string) (cells : list pyval) :
  length cells = df_len df → df_len (df_setitem df c cells) = df_len df.
Proof.
  destruct df as [|[c' old] df]; simpl; [done|].
  by destruct (String.eqb c' c).
Qed.

Lemma df_setitem_Forall_length (df : DataFrame) (c : string) (cells : list pyval)
    (n : nat) :
  Forall (fun col => length (snd col) = n) df →
  length cells = n →
  Forall (fun col => length (snd col) = n) (df_setitem df c cells).
Proof.
  intros Hwf Hlen.
  induction Hwf as [|[c' old] l Hc Hl IH]; simpl.
  - by repeat constructor.
  - destruct (String.eqb c' c); constructor; auto.
Qed.

Lemma df_setitem_wf (df : DataFrame) (c : string) (cells : list pyval) :
  df_wf df → length cells = df_len df → df_wf (df_setitem df c cells).
Proof.
  unfold df_wf. intros Hwf Hlen. rewrite (df_len_setitem df c cells Hlen).
  by apply df_setitem_Forall_length.
Qed.

Lemma label_of_is_label (analyzer : pyval -> result (gmap string spec_float))
    (text : pyval) :
  is_label (PStr (label_of analyzer text)).
Proof.
  exists (label_of analyzer text). split; [|done].
  pose proof (label_of_label analyzer text) as H.
  unfold sentiment_order. revert H. rewrite !elem_of_cons, !elem_of_nil. tauto.
Qed.

(** X4.  When the dataset has no Sentiment column yet, or has one for which
    pandas accepts the labels, the analysis writes the Sentiment column and
    nothing else: cell i of the column is the label [get_sentiment] returns
    for cell i of SUMMARY, so every row carries one of the three labels;
    every other column is untouched, a well-formed frame stays well formed,
    and the success message is the last thing rendered. *)
Theorem analyze_sentiment_labels
    (analyzer : pyval -> result (gmap string spec_float))
    (setitem_check : list pyval -> list pyval -> option exn)
    (w : world) (df : DataFrame) (summary : list pyval) :
  cache_ok analyzer (cache w) →
  session_state w !! "df" = Some df →
  df_lookup "SUMMARY" df = Some summary →
  (∀ old, df_lookup "Sentiment" df = Some old →
          setitem_check old (labels_of analyzer summary) = None) →
  ∃ w' df' sentiment,
    analyze_sentiment analyzer setitem_check w = (Ret tt, w') ∧
    session_state w' = <["df" := df']> (session_state w) ∧
    df_lookup "Sentiment" df' = Some sentiment ∧
    length sentiment = length summary ∧
    (∀ i text, summary !! i = Some text →
       ∃ label, sentiment !! i = Some (PStr label) ∧
                (get_sentiment analyzer text w).1 = Ret label) ∧
    Forall is_label sentiment ∧
    (∀ c, c ≠ "Sentiment" → df_lookup c df' = df_lookup c df) ∧
    (df_wf df → df_wf df' ∧ df_len df' = df_len df) ∧
    last (screen w') = Some (st_success "✅ Sentiment analysis completed!").
Proof.
  intros Hok Hdf Hsum Hacc.
  exists (analyze_sentiment analyzer setitem_check w).2,
         (df_setitem df "Sentiment" (labels_of analyzer summary)),
         (labels_of analyzer summary).
  rewrite (analyze_sentiment_spec analyzer setitem_check w df summary Hok Hdf Hsum Hacc).
  cbn [snd session_state screen]. repeat apply conj.
  - reflexivity.
  - reflexivity.
  - apply df_lookup_setitem_eq.
  - unfold labels_of. by rewrite length_map.
  - intros i text Hi. exists (label_of analyzer text). split.
    + unfold labels_of. by rewrite list_lookup_fmap, Hi.
    + by rewrite (get_sentiment_spec analyzer text w Hok).
  - unfold labels_of. apply Forall_map, Forall_forall. intros text _.
    apply label_of_is_label.
  - intros c Hc. by apply df_lookup_setitem_ne.
  - intros Hwf.
    assert (Hlen : length (labels_of analyzer summary) = df_len df).
    { unfold labels_of. rewrite length_map. by apply (df_wf_lookup df "SUMMARY"). }
    split; [by apply df_setitem_wf|by apply df_len_setitem].
  - apply last_snoc.
Qed.

Lemma analyze_sentiment_labels_witness :
  (∃ w' df' sentiment,
     analyze_sentiment demo_analyzer demo_setitem_check demo_loaded_world = (Ret tt, w') ∧
     session_state w' = <["df" := df']> (session_state demo_loaded_world) ∧
     df_lookup "Sentiment" df' = Some sentiment ∧
     length sentiment = 4 ∧
     Forall is_label sentiment) ∧
  (∃ w' df' sentiment,
     analyze_sentiment demo_analyzer demo_setitem_check demo_tagged_world = (Ret tt, w') ∧
     session_state w' = <["df" := df']> (session_state demo_tagged_world) ∧
     df_lookup "Sentiment" df' = Some sentiment ∧
     length sentiment = 2 ∧
     Forall is_label sentiment).
Proof.
  split.
  - destruct (analyze_sentiment_labels demo_analyzer demo_setitem_check
                demo_loaded_world demo_df
                [PStr "great product"; PStr "terrible experience"; PStr "it's fine"; NaN])
      as (w' & df' & sentiment & Hrun & Hss & Hcol & Hlen & _ & Hlabels & _);
      [apply cache_ok_nil | reflexivity | reflexivity
       | intros old Hold; vm_compute in Hold; discriminate Hold |].
    by exists w', df', sentiment.
  - destruct (analyze_sentiment_labels demo_analyzer demo_setitem_check
                demo_tagged_world demo_tagged_df
                [PStr "great product"; PStr "terrible experience"])
      as (w' & df' & sentiment & Hrun & Hss & Hcol & Hlen & _ & Hlabels & _);
      [apply cache_ok_nil | reflexivity | reflexivity
       | intros old Hold; vm_compute in Hold; injection Hold as <-; reflexivity |].
    by exists w', df', sentiment.
Defined.

(** X5.  When the loaded dataset has no SUMMARY column the lookup raises
    [KeyError]; the handler catches it, shows the error with the name of the
    column, scores nothing and leaves the session state as it was. *)
Theorem analyze_sentiment_missing_summary
    (analyzer : pyval -> result (gmap string spec_float))
    (setitem_check : list pyval -> list pyval -> option exn)
    (w : world) (df : DataFrame) :
  session_state w !! "df" = Some df →
  df_lookup "SUMMARY" df = None →
  ∃ w', analyze_sentiment analyzer setitem_check w = (Ret tt, w') ∧
        session_state w' = session_state w ∧
        cache w' = cache w ∧
        scored w' = scored w ∧
        screen w' = screen w
                      ++ [st_error "❌ Error during sentiment analysis: 'SUMMARY'"].
Proof.
  intros Hdf Hno. eexists.
  rewrite (analyze_sentiment_no_summary analyzer setitem_check w df Hdf Hno).
  by repeat apply conj.
Qed.

Lemma analyze_sentiment_missing_summary_witness :
  ∃ w', analyze_sentiment demo_analyzer demo_setitem_check demo_no_summary_world
          = (Ret tt, w') ∧
        session_state w' = session_state demo_no_summary_world ∧
        cache w' = [] ∧ scored w' = [] ∧
        screen w' = [st_error "❌ Error during sentiment analysis: 'SUMMARY'"].
Proof.
  apply (analyze_sentiment_missing_summary demo_analyzer demo_setitem_check demo_no_summary_world
           [("PRODUCT", [PStr "Widget"; PStr "Gadget"])]); reflexivity.
Defined.

Lemma analyze_sentiment_total
    (analyzer : pyval -> result (gmap string spec_float))
    (setitem_check : list pyval -> list pyval -> option exn) (w : world) :
  ∃ w', analyze_sentiment analyzer setitem_check w = (Ret tt, w') ∧
        (∀ k, k ≠ "df" → session_state w' !! k = session_state w !! k).
Proof.
  destruct (session_state w !! "df") as [df|] eqn:Hdf.
  - destruct (df_lookup "SUMMARY" df) as [summary|] eqn:Hsum.
    + unfold analyze_sentiment, mbind, M_bind, in_session.
      rewrite Hdf. rewrite bool_decide_true; [|by eexists].
      unfold try_except, get_session, lift, df_getitem.
      rewrite Hdf, Hsum.
      destruct (series_apply_returns analyzer summary w) as (labels & w1 & -> & Hs1).
      rewrite Hs1, Hdf.
      destruct (df_loc_setitem setitem_check df "Sentiment" labels) as [updated|e];
        unfold set_session, render; cbn [session_state];
        (eexists; split; [reflexivity|]); cbn [session_state]; intros k Hk.
      * rewrite lookup_insert_ne by done. by rewrite Hs1.
      * by rewrite Hs1.
    + rewrite (analyze_sentiment_no_summary analyzer setitem_check w df Hdf Hsum).
      by eexists.
  - rewrite (analyze_sentiment_no_df analyzer setitem_check w Hdf). by eexists.
Qed.


(** X6.  The analysis handler never lets an exception out, whatever the
    session holds and whatever the analyzer does, and it touches no key of
    the session state but "df". *)
Theorem analyze_sentiment_never_raises
    (analyzer : pyval -> result (gmap string spec_float))
    (setitem_check : list pyval -> list pyval -> option exn) (w : world) :
  (analyze_sentiment analyzer setitem_check w).1 = Ret tt ∧
  (∀ k, k ≠ "df" →
     session_state (analyze_sentiment analyzer setitem_check w).2 !! k = session_state w !! k).
Proof.
  destruct (analyze_sentiment_total analyzer setitem_check w) as (w' & -> & Hkeys). by split.
Qed.

(** ** The classifier beyond the thresholds *)

(** X7.  When the analyzer returns a dict without the key "compound", the
    [KeyError] of the lookup is caught like any scorer failure: the label is
    Neutral and the error names the key. *)
Theorem get_sentiment_missing_compound
    (analyzer : pyval -> result (gmap string spec_float))
    (text : pyval) (w : world) (scores : gmap string spec_float) :
  cache_ok analyzer (cache w) →
  py_not text = false →
  pd_isna text = false →
  analyzer text = Ret scores →
  scores !! "compound" = None →
  ∃ w', get_sentiment analyzer text w = (Ret "Neutral", w') ∧
        screen w' = screen w ++ [st_error "VADER model error: 'compound'"].
Proof.
  intros Hok Hnot Hna Hscores Hno.
  exists (world_after analyzer text w).
  rewrite (get_sentiment_spec analyzer text w Hok), screen_after.
  unfold label_of, shown_of.
  by rewrite (guard_false_inv text Hnot Hna), Hscores, Hno.
Qed.

Lemma get_sentiment_missing_compound_witness :
  ∃ w', get_sentiment demo_analyzer (PStr "no compound") demo_world
          = (Ret "Neutral", w') ∧
        screen w' = [st_error "VADER model error: 'compound'"].
Proof.
  apply (get_sentiment_missing_compound demo_analyzer (PStr "no compound")
           demo_world ∅); [apply cache_ok_nil | reflexivity..].
Defined.

(** X8.  The label is Neutral exactly when neither comparison of the chain
    holds.  A NaN score fails both comparisons, so it is labelled Neutral,
    without any error being reported. *)
Theorem get_sentiment_neutral_iff
    (analyzer : pyval -> result (gmap string spec_float))
    (text : pyval) (w : world)
    (scores : gmap string spec_float) (compound : spec_float) :
  cache_ok analyzer (cache w) →
  py_not text = false →
  pd_isna text = false →
  analyzer text = Ret scores →
  scores !! "compound" = Some compound →
  ((get_sentiment analyzer text w).1 = Ret "Neutral" ↔
     float_ge compound f_0_05 = false ∧ float_le compound f_neg_0_05 = false) ∧
  (compound = S754_nan → (get_sentiment analyzer text w).1 = Ret "Neutral") ∧
  screen (get_sentiment analyzer text w).2 = screen w.
Proof.
  intros Hok Hnot Hna Hscores Hcompound.
  rewrite (get_sentiment_spec analyzer text w Hok). cbn [fst snd].
  rewrite screen_after. unfold label_of, shown_of.
  rewrite (guard_false_inv text Hnot Hna), Hscores, Hcompound.
  unfold threshold. repeat apply conj.
  - destruct (float_ge compound f_0_05); [by intros [= ?]|].
    destruct (float_le compound f_neg_0_05); [by intros [= ?]|done].
  - by intros [-> ->].
  - by intros ->.
  - by rewrite app_nil_r.
Qed.

Lemma get_sentiment_neutral_iff_witness :
  (get_sentiment demo_analyzer (PStr "slightly good") demo_world).1 = Ret "Neutral".
Proof.
  refine (proj2 (proj1 (get_sentiment_neutral_iff demo_analyzer (PStr "slightly good")
                          demo_world
                          (demo_scores (S754_finite false 5764607523034235 (-57)))
                          (S754_finite false 5764607523034235 (-57)) _ _ _ _ _)) _);
    [apply cache_ok_nil | reflexivity | reflexivity | reflexivity | reflexivity
    | split; reflexivity].
Defined.

(** X9.  The scorer is invoked by a call exactly when the argument passes the
    guard and is not yet in the store of [st.cache_data]; it is then invoked
    once, on that argument.  In every other case the trace of scorer calls
    is unchanged. *)
Theorem get_sentiment_scoring
    (analyzer : pyval -> result (gmap string spec_float))
    (text : pyval) (w : world) :
  scored (get_sentiment analyzer text w).2 =
    if py_not text || pd_isna text then scored w
    else match cache_lookup text (cache w) with
         | Some _ => scored w
         | None => scored w ++ [text]
         end.
Proof.
  unfold get_sentiment, cache_data.
  destruct (cache_lookup text (cache w)) as [[v shown]|] eqn:Hhit.
  - by destruct (py_not text || pd_isna text).
  - rewrite get_sentiment_body_spec. cbn [snd scored]. unfold invoked_on.
    destruct (py_not text || pd_isna text); [by rewrite app_nil_r|done].
Qed.

Lemma world_after_hit (analyzer : pyval -> result (gmap string spec_float))
    (text : pyval) (w : world) :
  is_Some (cache_lookup text (cache w)) →
  world_after analyzer text w =
    World (session_state w) (screen w ++ shown_of analyzer text) (cache w) (scored w).
Proof. intros [entry Hentry]. unfold world_after. by rewrite Hentry. Qed.

(** X10.  A call repeated on the same argument is served from the store: it
    returns the label of the first call, replays what the first call
    rendered, and neither scores again nor grows the store. *)
Theorem get_sentiment_cached
    (analyzer : pyval -> result (gmap string spec_float))
    (text : pyval) (w : world) :
  cache_ok analyzer (cache w) →
  ∃ label w1 w2,
    get_sentiment analyzer text w = (Ret label, w1) ∧
    get_sentiment analyzer text w1 = (Ret label, w2) ∧
    scored w2 = scored w1 ∧
    cache w2 = cache w1 ∧
    screen w2 = screen w1 ++ drop (length (screen w)) (screen w1).
Proof.
  intros Hok.
  exists (label_of analyzer text), (world_after analyzer text w),
         (world_after analyzer text (world_after analyzer text w)).
  split; [by apply get_sentiment_spec|].
  split; [apply get_sentiment_spec; by apply cache_ok_after|].
  rewrite (world_after_hit analyzer text (world_after analyzer text w))
    by apply cache_lookup_after.
  cbn [scored cache screen]. repeat apply conj; try done.
  by rewrite (screen_after analyzer text w), drop_app_length.
Qed.

Lemma get_sentiment_cached_witness :
  ∃ label w1 w2,
    get_sentiment demo_analyzer (PFloat (S754_finite false 5 0)) demo_world
      = (Ret label, w1) ∧
    get_sentiment demo_analyzer (PFloat (S754_finite false 5 0)) w1 = (Ret label, w2) ∧
    scored w2 = scored w1 ∧
    cache w2 = cache w1 ∧
    screen w2 = screen w1 ++ drop (length (screen demo_world)) (screen w1).
Proof.
  apply (get_sentiment_cached demo_analyzer (PFloat (S754_finite false 5 0)) demo_world).
  apply cache_ok_nil.
Defined.

(** ** No text is scored twice in a session *)

Lemma scored_once_after (analyzer : pyval -> result (gmap string spec_float))
    (text : pyval) (w : world) :
  scored_once w → scored_once (world_after analyzer text w).
Proof.
  intros [Hnd Hin]. unfold world_after.
  destruct (cache_lookup text (cache w)) as [entry|] eqn:Hhit; [done|].
  unfold scored_once, invoked_on. cbn [scored cache].
  assert (Hfresh : text ∉ scored w).
  { intros Htext. destruct (Hin text Htext) as [[entry Hentry] _]. congruence. }
  assert (Hold : ∀ x, x ∈ scored w →
            is_Some (cache_lookup x
              ((text, (label_of analyzer text, shown_of analyzer text)) :: cache w)) ∧
            py_not x || pd_isna x = false).
  { intros x Hx. destruct (Hin x Hx) as [Hsome Hguard]. split; [|done].
    simpl. by destruct (decide (text = x)). }
  destruct (py_not text || pd_isna text) eqn:Hguard.
  - rewrite app_nil_r. by split.
  - split.
    + apply NoDup_app. split; [done|]. split; [|apply NoDup_singleton].
      intros x Hx Hx'. apply list_elem_of_singleton in Hx' as ->. by apply Hfresh.
    + intros x Hx. apply elem_of_app in Hx as [Hx|Hx]; [by apply Hold|].
      apply list_elem_of_singleton in Hx as ->. split; [|done].
      simpl. rewrite decide_True by done. by eexists.
Qed.

Lemma scored_once_after_all (analyzer : pyval -> result (gmap string spec_float))
    (cells : list pyval) (w : world) :
  scored_once w → scored_once (world_after_all analyzer cells w).
Proof.
  revert w. induction cells as [|x cells IH]; intros w Hw; [done|].
  simpl. apply IH. by apply scored_once_after.
Qed.

Lemma scored_once_store (w w' : world) :
  cache w' = cache w → scored w' = scored w → scored_once w → scored_once w'.
Proof. unfold scored_once. by intros -> ->. Qed.

Lemma analyze_sentiment_scored_once
    (analyzer : pyval -> result (gmap string spec_float))
    (setitem_check : list pyval -> list pyval -> option exn) (w : world) :
  cache_ok analyzer (cache w) →
  scored_once w →
  scored_once (analyze_sentiment analyzer setitem_check w).2.
Proof.
  intros Hok Hw.
  destruct (session_state w !! "df") as [df|] eqn:Hdf.
  - destruct (df_lookup "SUMMARY" df) as [summary|] eqn:Hsum.
    + rewrite (analyze_sentiment_run analyzer setitem_check w df summary Hok Hdf Hsum).
      destruct (df_loc_setitem setitem_check df "Sentiment" (labels_of analyzer summary));
        by apply (scored_once_store (world_after_all analyzer summary w)),
                 scored_once_after_all.
    + by rewrite (analyze_sentiment_no_summary analyzer setitem_check w df Hdf Hsum).
  - by rewrite (analyze_sentiment_no_df analyzer setitem_check w Hdf).
Qed.

Lemma load_dataset_scored (current_dir : string) (files : gmap string string)
    (parse_csv : string -> result DataFrame) (w : world) :
  scored (load_dataset current_dir files parse_csv w).2 = scored w.
Proof.
  destruct (load_dataset_cases current_dir files parse_csv w) as (e & ss & -> & _).
  done.
Qed.

Lemma app_scored_once (analyzer : pyval -> result (gmap string spec_float))
    (setitem_check : list pyval -> list pyval -> option exn)
    (current_dir : string) (files : gmap string string)
    (parse_csv : string -> result DataFrame) (selectbox : list pyval -> pyval)
    (c : click) (w : world) :
  cache_ok analyzer (cache w) →
  scored_once w →
  scored_once (app analyzer setitem_check current_dir files parse_csv selectbox c w).2.
Proof.
  intros Hok Hw. unfold app.
  unfold mbind at 1, M_bind at 1. unfold render at 1.
  unfold mbind at 1, M_bind at 1. unfold render at 1.
  set (w2 := World _ _ _ _).
  assert (Hok2 : cache_ok analyzer (cache w2)) by done.
  assert (Hw2 : scored_once w2) by done.
  clearbody w2. clear w Hok Hw.
  unfold mbind at 1, M_bind at 1.
  assert (Hload : ∃ r w3,
    (match c with
     | LoadDataset => load_dataset current_dir files parse_csv
     | _ => ret ()
     end) w2 = (r, w3) ∧ cache_ok analyzer (cache w3) ∧ scored_once w3).
  { destruct c; try (by eexists _, _).
    pose proof (load_dataset_cache current_dir files parse_csv w2) as Hc.
    pose proof (load_dataset_scored current_dir files parse_csv w2) as Hs.
    destruct (load_dataset current_dir files parse_csv w2) as [r w3].
    exists r, w3. simpl in Hc, Hs. split; [done|]. split; [by rewrite Hc|].
    by apply (scored_once_store w2). }
  destruct Hload as (r & w3 & -> & Hok3 & Hw3).
  destruct r as [[]|e]; [|done].
  unfold mbind at 1, M_bind at 1.
  assert (Han : ∃ r w4,
    (match c with
     | AnalyzeSentiment => analyze_sentiment analyzer setitem_check
     | _ => ret ()
     end) w3 = (r, w4) ∧ scored_once w4).
  { destruct c; try (by eexists _, _).
    pose proof (analyze_sentiment_scored_once analyzer setitem_check w3 Hok3 Hw3) as Hs.
    destruct (analyze_sentiment analyzer setitem_check w3) as [r w4]. by exists r, w4. }
  destruct Han as (r & w4 & -> & Hw4).
  destruct r as [[]|e]; [|done].
  destruct (display_preserves selectbox w4) as (_ & Hc & Hs).
  by apply (scored_once_store w4).
Qed.

(** X11.  Throughout a session no text is scored twice: in every world the
    script can be run in, the trace of scorer calls has no repetition, every
    scored argument is kept in the store of [st.cache_data], and nothing
    falsy or missing was ever handed to the scorer. *)
Theorem reachable_scored_once
    (analyzer : pyval -> result (gmap string spec_float)) (w : world) :
  reachable analyzer w →
  NoDup (scored w) ∧
  ∀ x, x ∈ scored w →
       is_Some (cache_lookup x (cache w)) ∧ py_not x || pd_isna x = false.
Proof.
  intros Hreach. change (scored_once w).
  induction Hreach as [|setitem_check w current_dir files parse_csv selectbox c Hreach IH].
  - split; [constructor|]. intros x Hx. by apply elem_of_nil in Hx.
  - apply (scored_once_store
             (app analyzer setitem_check current_dir files parse_csv selectbox c w).2);
      [done|done|].
    apply app_scored_once; [by apply reachable_cache_ok|done].
Qed.

Lemma reachable_scored_once_witness :
  scored demo_session_2
    = [PStr "great product"; PStr "terrible experience"; PStr "it's fine"] ∧
  NoDup (scored demo_session_2).
Proof.
  split; [vm_compute; reflexivity|].
  apply (reachable_scored_once demo_analyzer demo_session_2).
  exact (reachable_run demo_analyzer demo_setitem_check demo_session_1 "/srv/app"
           demo_files demo_parse demo_selectbox AnalyzeSentiment
           (reachable_run demo_analyzer demo_setitem_check (World ∅ [] [] []) "/srv/app"
              demo_files demo_parse demo_selectbox LoadDataset
              (reachable_init demo_analyzer))).
Defined.

(** ** The hash-table equality, [unique] and [value_counts] on any column *)

Lemma SFcompare_refl (f : spec_float) : f ≠ S754_nan → SFcompare f f = Some Eq.
Proof.
  destruct f as [[]|[]| |[] m e]; intros Hf; try done; simpl;
    by rewrite Z.compare_refl, Pos.compare_cont_refl.
Qed.

(** Two floats that compare equal are the same float, up to the sign of
    zero. *)
Lemma SFeqb_true_inv (f g : spec_float) :
  SFeqb f g = true →
  (∃ s t, f = S754_zero s ∧ g = S754_zero t) ∨ (f = g ∧ f ≠ S754_nan).
Proof.
  unfold SFeqb.
  destruct f as [s|s| |s m e], g as [t|t| |t n e']; simpl; try done;
    try (by destruct s); try (by destruct t).
  - intros _. left. by exists s, t.
  - destruct s, t; try done; intros _; by right.
  - assert (Heq : (e ?= e')%Z = Eq → Pos.compare_cont Eq m n = Eq →
                  S754_finite s m e = S754_finite s n e').
    { intros He Hm. apply Z.compare_eq in He as ->.
      change (Pos.compare_cont Eq m n) with (Pos.compare m n) in Hm.
      by apply Pos.compare_eq in Hm as ->. }
    destruct s, t; try done; destruct (e ?= e')%Z eqn:He; try done;
      destruct (Pos.compare_cont Eq m n) eqn:Hm; try done;
      intros _; right; (split; [by apply Heq|done]).
Qed.

Lemma hash_eqb_refl (x : pyval) : hash_eqb x x = true.
Proof.
  destruct x as [|s|f]; simpl; [done|apply String.eqb_refl|].
  destruct f as [[]|[]| |[] m e]; try done; unfold SFeqb;
    by rewrite SFcompare_refl.
Qed.

Lemma hash_eqb_sym (x y : pyval) : hash_eqb x y = hash_eqb y x.
Proof.
  destruct x as [|s|f], y as [|t|g]; simpl; try done;
    try (by destruct f as [| | |]); try (by destruct g as [| | |]).
  - apply String.eqb_sym.
  - assert (Hsym : SFeqb f g = SFeqb g f).
    { unfold SFeqb. rewrite (SFcompare_antisym f g).
      by destruct (SFcompare f g) as [[]|]. }
    destruct f as [| | |], g as [| | |]; try done.
Qed.

Lemma hash_eqb_float_inv (f g : spec_float) :
  hash_eqb (PFloat f) (PFloat g) = true →
  (∃ s t, f = S754_zero s ∧ g = S754_zero t) ∨ f = g.
Proof.
  simpl. destruct f as [s|s| |s m e].
  - intros H. destruct (SFeqb_true_inv _ _ H) as [?|[? _]]; auto.
  - intros H. destruct (SFeqb_true_inv _ _ H) as [?|[? _]]; auto.
  - destruct g; try done. by right.
  - intros H. destruct (SFeqb_true_inv _ _ H) as [?|[? _]]; auto.
Qed.

Lemma hash_eqb_true_inv (x y : pyval) :
  hash_eqb x y = true →
  x = y ∨ ∃ s t, x = PFloat (S754_zero s) ∧ y = PFloat (S754_zero t).
Proof.
  destruct x as [|s|f], y as [|t|g]; try (by left);
    try (simpl; discriminate); try (by destruct f as [| | |]).
  - simpl. rewrite String.eqb_eq. intros ->. by left.
  - intros H. destruct (hash_eqb_float_inv f g H) as [(s & t & -> & ->)| ->].
    + right. by exists s, t.
    + by left.
Qed.

Lemma hash_eqb_trans (x y z : pyval) :
  hash_eqb x y = true → hash_eqb y z = true → hash_eqb x z = true.
Proof.
  intros Hxy Hyz.
  destruct (hash_eqb_true_inv x y Hxy) as [->|(s & t & -> & ->)]; [done|].
  destruct (hash_eqb_true_inv _ z Hyz) as [<-|(s' & t' & _ & ->)]; done.
Qed.

Lemma hash_eqb_str_l (k : pyval) (s : string) :
  hash_eqb k (PStr s) = true ↔ k = PStr s.
Proof. rewrite hash_eqb_sym. apply hash_eqb_str. Qed.

Lemma uniques_sub (cells : list pyval) (x : pyval) : x ∈ uniques cells → x ∈ cells.
Proof.
  revert x. induction cells as [|y cells IH]; intros x; simpl; [done|].
  rewrite !elem_of_cons, list_elem_of_filter. intros [->|[_ Hx]]; auto.
Qed.

(** Every cell has a representative among the distinct values. *)
Lemma uniques_cover (cells : list pyval) (y : pyval) :
  y ∈ cells → ∃ k, k ∈ uniques cells ∧ hash_eqb k y = true.
Proof.
  induction cells as [|x cells IH]; intros Hy; [by apply elem_of_nil in Hy|].
  simpl. apply elem_of_cons in Hy as [->|Hy].
  - exists x. split; [by left|apply hash_eqb_refl].
  - destruct (IH Hy) as (k & Hk & Hky).
    destruct (hash_eqb x k) eqn:Hxk.
    + exists x. split; [by left|]. by apply (hash_eqb_trans x k y).
    + exists k. split; [|done]. right. by apply list_elem_of_filter.
Qed.

Lemma ForallOrdPairs_filter {A : Type} (R : A -> A -> Prop) (P : A -> Prop)
    `{∀ x, Decision (P x)} (l : list A) :
  ForallOrdPairs R l → ForallOrdPairs R (filter P l).
Proof.
  induction 1 as [|a l Ha _ IH]; [constructor|].
  rewrite filter_cons. destruct (decide (P a)); [|done].
  constructor; [|done]. rewrite Forall_forall in Ha.
  apply Forall_forall. intros y Hy. apply list_elem_of_filter in Hy as [_ Hy]. auto.
Qed.

(** The distinct values are pairwise different keys. *)
Lemma uniques_distinct (cells : list pyval) :
  ForallOrdPairs (fun a b => hash_eqb a b = false) (uniques cells).
Proof.
  induction cells as [|x cells IH]; simpl; [constructor|].
  constructor; [|by apply ForallOrdPairs_filter].
  apply Forall_forall. intros y Hy. by apply list_elem_of_filter in Hy as [? _].
Qed.

Lemma uniques_str (cells : list pyval) (s : string) :
  PStr s ∈ uniques cells ↔ PStr s ∈ cells.
Proof.
  split; [apply uniques_sub|]. intros Hs.
  destruct (uniques_cover cells (PStr s) Hs) as (k & Hk & Hks).
  by apply hash_eqb_str_l in Hks as ->.
Qed.

Lemma uniques_NoDup (cells : list pyval) : NoDup (uniques cells).
Proof.
  pose proof (uniques_distinct cells) as Hd.
  induction Hd as [|a l Ha _ IH]; constructor; [|done].
  intros Hin. rewrite Forall_forall in Ha.
  specialize (Ha a Hin). by rewrite hash_eqb_refl in Ha.
Qed.

Lemma count_of_cons (cells : list pyval) (k y : pyval) :
  count_of (y :: cells) k
  = (if hash_eqb k y then 1 else 0) + count_of cells k.
Proof.
  unfold count_of. rewrite filter_cons.
  destruct (hash_eqb k y) eqn:E; case_decide; simpl; congruence.
Qed.

Lemma covered_counts (k : pyval) (K cells : list pyval) :
  Forall (fun k' => hash_eqb k k' = false) K →
  length (List.filter (covered (k :: K)) cells)
  = count_of cells k + length (List.filter (covered K) cells).
Proof.
  intros Hk. induction cells as [|y cells IH]; [done|].
  rewrite count_of_cons. cbn [List.filter covered existsb].
  fold (covered K y).
  destruct (hash_eqb k y) eqn:Hky; cbn [orb].
  - assert (Hno : covered K y = false).
    { apply not_true_is_false. unfold covered. rewrite existsb_exists.
      intros (k' & Hk' & Hk'y). rewrite Forall_forall in Hk.
      apply list_elem_of_In in Hk'. specialize (Hk k' Hk').
      rewrite (hash_eqb_trans k y k') in Hk; [done|done|].
      by rewrite hash_eqb_sym. }
    rewrite Hno. simpl. rewrite IH. lia.
  - destruct (covered K y); simpl; rewrite IH; lia.
Qed.

(** Summed over the distinct values, the counts are the length of the
    column: no cell is lost and none is counted twice. *)
Lemma uniques_counts_sum (cells : list pyval) :
  sum_list (map (count_of cells) (uniques cells)) = length cells.
Proof.
  assert (Hsum : ∀ K, ForallOrdPairs (fun a b => hash_eqb a b = false) K →
            sum_list (map (count_of cells) K)
            = length (List.filter (covered K) cells)).
  { induction 1 as [|k K Hk _ IH]; simpl.
    - induction cells as [|y cells IHc]; [done|]. by simpl.
    - by rewrite IH, covered_counts. }
  rewrite (Hsum _ (uniques_distinct cells)). f_equal.
  apply forallb_filter_id, forallb_forall. intros y Hy.
  apply list_elem_of_In in Hy.
  destruct (uniques_cover cells y Hy) as (k & Hk & Hky).
  unfold covered. apply existsb_exists. exists k.
  split; [by apply list_elem_of_In|done].
Qed.

Lemma count_of_positive (cells : list pyval) (k : pyval) :
  k ∈ cells → 1 ≤ count_of cells k.
Proof.
  intros Hk. unfold count_of.
  assert (Hin : k ∈ filter (fun x => hash_eqb k x = true) cells).
  { apply list_elem_of_filter. split; [apply hash_eqb_refl|done]. }
  destruct (filter _ cells); [by apply elem_of_nil in Hin|simpl; lia].
Qed.

(** ** The chart of any Sentiment column *)

Section AnyColumn.

Variable cells : list pyval.

(** The cells [value_counts] counts: those that are not missing. *)
Let kept : list pyval := filter (fun x => pd_isna x = false) cells.

Lemma kept_str (s : string) : PStr s ∈ kept ↔ PStr s ∈ cells.
Proof. unfold kept. rewrite list_elem_of_filter. intuition. Qed.

Lemma value_counts_perm_any :
  value_counts cells ≡ₚ map (fun k => (k, count_of kept k)) (uniques kept).
Proof. unfold value_counts. apply merge_sort_Permutation. Qed.

Lemma value_counts_keys_any : map fst (value_counts cells) ≡ₚ uniques kept.
Proof.
  rewrite value_counts_perm_any, map_map; simpl. by rewrite map_id.
Qed.

Lemma filtered_order_present_any :
  filtered_order (value_counts cells) = present_labels cells.
Proof.
  unfold filtered_order, present_labels. apply List.filter_ext. intros s.
  apply eq_true_iff_eq.
  rewrite array_contains_spec, uniques_str, value_counts_keys_any, uniques_str.
  by rewrite kept_str, bool_decide_eq_true.
Qed.

Lemma count_of_kept_str (s : string) : count_of kept (PStr s) = occurrences s cells.
Proof.
  unfold count_of, occurrences, kept. rewrite list_filter_filter. f_equal.
  apply list_filter_iff. intros x. rewrite hash_eqb_str.
  split; [by intros [-> _]|by intros ->].
Qed.

Lemma present_labels_sub (s : string) :
  s ∈ present_labels cells → s ∈ sentiment_order ∧ PStr s ∈ cells.
Proof.
  unfold present_labels.
  rewrite list_elem_of_In, filter_In, <- list_elem_of_In.
  by rewrite bool_decide_eq_true.
Qed.

Lemma value_counts_sum_any :
  sum_list (map snd (value_counts cells)) = length kept.
Proof.
  rewrite value_counts_perm_any, map_map; simpl.
  apply uniques_counts_sum.
Qed.

Lemma value_counts_positive_any :
  Forall (fun row => 1 ≤ snd row) (value_counts cells).
Proof.
  rewrite value_counts_perm_any. apply Forall_map, Forall_forall.
  intros k Hk; simpl. apply count_of_positive. by apply uniques_sub.
Qed.

End AnyColumn.

Lemma color_of_order (s : string) :
  s ∈ sentiment_order →
  ∃ c, color_of s sentiment_colors = Ret c ∧ (s, c) ∈ sentiment_colors.
Proof.
  unfold sentiment_order, sentiment_colors. intros Hs.
  apply elem_of_cons in Hs as [->|Hs];
    [exists "red"; split; [reflexivity|by left]|].
  apply elem_of_cons in Hs as [->|Hs];
    [exists "lightgray"; split; [reflexivity|right; by left]|].
  apply list_elem_of_singleton in Hs as ->.
  exists "green". split; [reflexivity|right; right; by left].
Qed.

Lemma filtered_colors_spec (order : list string) :
  Forall (fun s => s ∈ sentiment_order) order →
  ∃ colors, filtered_colors order = Ret colors ∧
            map fst colors = order ∧
            Forall (fun sc => sc ∈ sentiment_colors) colors.
Proof.
  induction 1 as [|s order Hs _ (colors & IH & Hfst & Hin)].
  - by exists [].
  - destruct (color_of_order s Hs) as (c & Hc & Hsc).
    exists ((s, c) :: colors). cbn [filtered_colors].
    rewrite Hc, IH. split; [done|]. split; [by rewrite <- Hfst|].
    by constructor.
Qed.

(** X12.  Whatever the Sentiment column holds, building the colour map never
    raises: the chart gets one colour per label that occurs, in the
    canonical order, and each is the fixed colour of that label (Negative
    red, Neutral lightgray, Positive green). *)
Theorem chart_colors_fixed (filtered : DataFrame) (cells : list pyval) :
  df_lookup "Sentiment" filtered = Some cells →
  ∃ colors,
    chart_colors filtered = Ret colors ∧
    map fst colors = present_labels cells ∧
    Forall (fun sc => sc ∈ [("Negative", "red"); ("Neutral", "lightgray");
                             ("Positive", "green")]) colors.
Proof.
  intros Hcol. unfold chart_colors, df_getitem, mbind, result_bind.
  rewrite Hcol, filtered_order_present_any.
  apply filtered_colors_spec, Forall_forall.
  intros s Hs. by apply present_labels_sub in Hs as [? _].
Qed.

Lemma chart_colors_fixed_witness :
  ∃ colors,
    chart_colors demo_labeled = Ret colors ∧
    map fst colors = ["Neutral"; "Positive"].
Proof.
  destruct (chart_colors_fixed demo_labeled
              [PStr "Positive"; PStr "Neutral"; PStr "Positive"; PStr "Neutral";
               PStr "Positive"]) as (colors & Hrun & Hfst & _); [reflexivity|].
  exists colors. split; [exact Hrun|]. rewrite Hfst. vm_compute. reflexivity.
Defined.

(** X13.  Whatever the Sentiment column holds (labels, other strings,
    numbers, missing cells), aggregating never raises, every bar stands for
    at least one row, and the bars add up to the number of cells that are
    not missing: no row is lost and none is counted twice. *)
Theorem sentiment_counts_sum (filtered : DataFrame) (cells : list pyval) :
  df_lookup "Sentiment" filtered = Some cells →
  ∃ bars,
    sentiment_counts filtered = Ret bars ∧
    sum_list (map snd bars) = length (filter (fun x => pd_isna x = false) cells) ∧
    Forall (fun row => 1 ≤ snd row) bars.
Proof.
  intros Hcol. unfold sentiment_counts, df_getitem, mbind, result_bind.
  rewrite Hcol. eexists. split; [reflexivity|]. split.
  - rewrite merge_sort_Permutation, map_map.
    apply (value_counts_sum_any cells).
  - rewrite merge_sort_Permutation. apply Forall_map.
    eapply Forall_impl; [apply value_counts_positive_any|done].
Qed.

Lemma sentiment_counts_sum_witness :
  ∃ bars,
    sentiment_counts [("Sentiment", [PStr "Positive"; NaN; PStr "great"; PStr "Positive";
                                     PFloat f_0; PNone])] = Ret bars ∧
    sum_list (map snd bars) = 4.
Proof.
  destruct (sentiment_counts_sum
              [("Sentiment", [PStr "Positive"; NaN; PStr "great"; PStr "Positive";
                              PFloat f_0; PNone])]
              [PStr "Positive"; NaN; PStr "great"; PStr "Positive"; PFloat f_0; PNone])
    as (bars & Hrun & Hsum & _); [reflexivity|].
  exists bars. split; [exact Hrun|]. rewrite Hsum. vm_compute. reflexivity.
Defined.

(** ** Values that are no label *)

Lemma filter_all {A : Type} (P : A -> Prop) `{∀ x, Decision (P x)} (l : list A) :
  Forall P l → filter P l = l.
Proof.
  induction 1 as [|x l Hx _ IH]; [done|].
  by rewrite filter_cons_True, IH.
Qed.

Lemma filter_none {A : Type} (P : A -> Prop) `{∀ x, Decision (P x)} (l : list A) :
  Forall (fun x => ¬ P x) l → filter P l = [].
Proof.
  induction 1 as [|x l Hx _ IH]; [done|].
  by rewrite filter_cons_False.
Qed.

(** In a sorted categorical column the rows with a category come first. *)
Lemma sorted_categories_first (cats : list string) (l : list (option string * nat)) :
  StronglySorted (category_le cats) l →
  Forall (fun row => ∀ s, fst row = Some s → s ∈ cats) l →
  l = filter (fun row => is_Some (fst row)) l ++ filter (fun row => fst row = None) l.
Proof.
  induction 1 as [|[cat n] l _ IH Hx]; intros Hcats; [done|].
  apply Forall_cons in Hcats as [Hcat Hcats].
  destruct cat as [s|].
  - rewrite filter_cons_True by (by eexists).
    rewrite (filter_cons_False (fun row => fst row = None)) by done.
    simpl. f_equal. by apply IH.
  - assert (Hnone : Forall (fun row => fst row = None) l).
    { rewrite Forall_forall in Hx, Hcats. apply Forall_forall.
      intros [[t|] m] Hrow; [|done].
      specialize (Hx _ Hrow). specialize (Hcats _ Hrow t eq_refl).
      unfold category_le in Hx. simpl in Hx.
      by destruct (index_of_elem t cats Hcats) as [j Hj]; rewrite Hj in Hx. }
    rewrite filter_cons_False by (by intros [? ?]).
    rewrite (filter_cons_True (fun row => fst row = None)) by done.
    rewrite (filter_none (fun row => is_Some (fst row))), (filter_all _ l Hnone); [done|].
    eapply Forall_impl; [exact Hnone|]. intros row -> [? ?]. done.
Qed.

Section ForeignValues.

Variable cells : list pyval.

Let kept : list pyval := filter (fun x => pd_isna x = false) cells.
Let order : list string := present_labels cells.
Let row_of (k : pyval) : option string * nat :=
  (categorical order k, count_of kept k).

Lemma categorical_Some (k : pyval) :
  is_Some (categorical order k) ↔ ∃ s, k = PStr s ∧ s ∈ order.
Proof.
  unfold categorical. split.
  - destruct k as [|s|f]; try (by intros [? ?]).
    case_bool_decide; [|by intros [? ?]]. intros _. by exists s.
  - intros (s & -> & Hs). rewrite bool_decide_true by done. by eexists.
Qed.

Lemma labelled_keys :
  filter (fun k => is_Some (categorical order k)) (uniques kept) ≡ₚ map PStr order.
Proof.
  apply NoDup_Permutation.
  - apply NoDup_filter, uniques_NoDup.
  - apply (NoDup_fmap_2 PStr), present_labels_NoDup.
  - intros k. rewrite list_elem_of_filter, categorical_Some, list_elem_of_fmap.
    split.
    + intros [(s & -> & Hs) _]. by exists s.
    + intros (s & -> & Hs). split; [by exists s|].
      apply uniques_str, kept_str. by apply present_labels_spec in Hs as [_ ?].
Qed.

Lemma labelled_rows_perm :
  filter (fun row => is_Some (fst row))
         (map (fun row => (categorical order (fst row), snd row)) (value_counts cells))
  ≡ₚ map (fun s => (Some s, occurrences s cells)) order.
Proof.
  rewrite value_counts_perm_any, map_map. cbn [fst snd].
  change (filter (fun row => is_Some (fst row)) (map row_of (uniques kept))
          ≡ₚ map (fun s => (Some s, occurrences s cells)) order).
  rewrite <- (filter_app_complement (fun k => is_Some (categorical order k))
               (uniques kept)) at 1.
  rewrite map_app, filter_app.
  rewrite (filter_all (fun row => is_Some (fst row))
             (map row_of (filter _ (uniques kept)))).
  2:{ apply Forall_map, Forall_forall. intros k Hk.
      by apply list_elem_of_filter in Hk as [? _]. }
  rewrite (filter_none (fun row => is_Some (fst row))
             (map row_of (filter _ (uniques kept)))).
  2:{ apply Forall_map, Forall_forall. intros k Hk.
      by apply list_elem_of_filter in Hk as [? _]. }
  rewrite app_nil_r, labelled_keys, map_map.
  rewrite (map_ext_in _ (fun s => (Some s, occurrences s cells))); [done|].
  intros s Hs. unfold row_of, categorical.
  rewrite bool_decide_true by (by apply list_elem_of_In).
  by rewrite (count_of_kept_str cells).
Qed.

Lemma categorical_rows_in_order :
  Forall (fun row => ∀ s, fst row = Some s → s ∈ order)
         (merge_sort (category_le order)
            (map (fun row => (categorical order (fst row), snd row))
                 (value_counts cells))).
Proof.
  rewrite merge_sort_Permutation. apply Forall_map, Forall_forall.
  intros [k n] _ s; simpl. intros Hs.
  destruct (proj1 (categorical_Some k)) as (t & -> & Ht); [by rewrite Hs|].
  unfold categorical in Hs. rewrite bool_decide_true in Hs by done.
  by injection Hs as <-.
Qed.

(** The rows of the chart: the labels that occur, in canonical order, then
    whatever else the column holds. *)
Lemma sorted_rows_split :
  ∃ rest,
    merge_sort (category_le order)
      (map (fun row => (categorical order (fst row), snd row)) (value_counts cells))
    = map (fun s => (Some s, occurrences s cells)) order ++ rest ∧
    Forall (fun row => fst row = None) rest.
Proof.
  set (bars := merge_sort _ _).
  assert (Hsorted : StronglySorted (category_le order) bars)
    by (unfold bars; apply StronglySorted_merge_sort; apply _).
  pose proof (sorted_categories_first order bars Hsorted categorical_rows_in_order)
    as Hsplit.
  exists (filter (fun row => fst row = None) bars).
  split; [|apply Forall_forall; intros row Hrow;
           by apply list_elem_of_filter in Hrow as [? _]].
  rewrite Hsplit at 1. f_equal.
  assert (Hperm : filter (fun row => is_Some (fst row)) bars
                  ≡ₚ map (fun s => (Some s, occurrences s cells)) order).
  { unfold bars. rewrite merge_sort_Permutation. apply labelled_rows_perm. }
  apply (Sorted_unique_strong (category_le order)).
  - intros x1 x2 Hx1 Hx2 H12 H21. rewrite Hperm in Hx1.
    apply list_elem_of_fmap in Hx1 as (s & -> & Hs).
    apply list_elem_of_fmap in Hx2 as (t & -> & Ht).
    by rewrite (category_le_antisym _ s t _ _ Hs Ht H12 H21).
  - apply StronglySorted_Sorted.
    rewrite Hsplit in Hsorted. by apply StronglySorted_app_1_l in Hsorted.
  - apply present_rows_sorted.
  - exact Hperm.
Qed.

End ForeignValues.

(** X14.  When the Sentiment column holds values that are no label (the file
    came with such a column, or cells are missing), the chart still starts
    with the labels that occur, in the order Negative, Neutral, Positive and
    with their numbers of rows; every other value follows as a bar without
    category. *)
Theorem sentiment_counts_foreign_values (filtered : DataFrame) (cells : list pyval) :
  df_lookup "Sentiment" filtered = Some cells →
  ∃ bars rest,
    sentiment_counts filtered = Ret bars ∧
    bars = map (fun s => (Some s, occurrences s cells)) (present_labels cells) ++ rest ∧
    Forall (fun row => fst row = None) rest.
Proof.
  intros Hcol. unfold sentiment_counts, df_getitem, mbind, result_bind.
  rewrite Hcol, filtered_order_present_any.
  destruct (sorted_rows_split cells) as (rest & Hsplit & Hrest).
  eexists _, rest. split; [reflexivity|]. by split.
Qed.

Lemma sentiment_counts_foreign_values_witness :
  sentiment_counts [("Sentiment", [PStr "great"; PStr "Positive"; NaN; PStr "great";
                                   PStr "Negative"])]
  = Ret [(Some "Negative", 1); (Some "Positive", 1); (None, 2)].
Proof.
  destruct (sentiment_counts_foreign_values
              [("Sentiment", [PStr "great"; PStr "Positive"; NaN; PStr "great";
                              PStr "Negative"])]
              [PStr "great"; PStr "Positive"; NaN; PStr "great"; PStr "Negative"])
    as (bars & rest & Hrun & _ & _); [reflexivity|].
  rewrite Hrun. revert Hrun. vm_compute. by intros [= ->].
Defined.

(** ** The filter *)

Lemma mask_select_filter {A : Type} (f : A -> bool) (xs : list A) :
  mask_select (map f xs) xs = List.filter f xs.
Proof.
  induction xs as [|x xs IH]; [done|]. simpl. rewrite IH. by destruct (f x).
Qed.

Lemma mask_select_all {A : Type} (mask : list bool) (xs : list A) :
  Forall (fun b => b = true) mask →
  length xs ≤ length mask →
  mask_select mask xs = xs.
Proof.
  intros Hmask. revert xs.
  induction Hmask as [|b mask -> _ IH]; intros [|x xs]; simpl; try done; [lia|].
  intros Hlen. rewrite IH; [done|lia].
Qed.

Lemma matching_all (product : pyval) (cells : list pyval) :
  Forall (fun cell => series_eq cell product = true) (matching product cells).
Proof.
  apply Forall_forall. intros cell Hcell. unfold matching in Hcell.
  by apply list_elem_of_In, filter_In in Hcell as [_ ?].
Qed.

Lemma filtered_df_product (df : DataFrame) (product : pyval) (products : list pyval) :
  py_ne_str product "All Products" = true →
  df_lookup "PRODUCT" df = Some products →
  filtered_df df product
  = Ret (df_filter (map (fun cell => series_eq cell product) products) df).
Proof.
  intros Hne Hcol. unfold filtered_df, df_getitem, mbind, result_bind.
  by rewrite Hne, Hcol.
Qed.

Lemma mask_select_kept (product : pyval) (products cells : list pyval) :
  mask_select (map (fun cell => series_eq cell product) products) cells
  = kept_cells product products cells.
Proof.
  unfold kept_cells. revert cells.
  induction products as [|p products IH]; intros [|x cells]; simpl; try done.
  rewrite IH. by destruct (series_eq p product).
Qed.

Lemma kept_cells_products (product : pyval) (products : list pyval) :
  kept_cells product products products = matching product products.
Proof.
  unfold kept_cells, matching.
  induction products as [|p products IH]; simpl; [done|].
  destruct (series_eq p product); simpl; by rewrite IH.
Qed.

(** X15.  Selecting a product keeps exactly the rows whose PRODUCT equals it
    and changes no cell: every column of the result holds the cells that
    column had in the rows whose PRODUCT cell equals the selection, in their
    order; the columns and their order stay the same.  So the PRODUCT column
    of the result holds the matching cells and nothing else, and a
    well-formed frame stays well formed with one row per matching cell. *)
Theorem filtered_df_rows (df : DataFrame) (product : pyval) (products : list pyval) :
  py_ne_str product "All Products" = true →
  df_lookup "PRODUCT" df = Some products →
  ∃ filtered,
    filtered_df df product = Ret filtered ∧
    filtered = map (fun col => (fst col, kept_cells product products (snd col))) df ∧
    (∀ c cells, df_lookup c df = Some cells →
                df_lookup c filtered = Some (kept_cells product products cells)) ∧
    df_columns filtered = df_columns df ∧
    df_lookup "PRODUCT" filtered = Some (matching product products) ∧
    Forall (fun cell => series_eq cell product = true) (matching product products) ∧
    (df_wf df →
       df_wf filtered ∧
       df_len filtered = length (matching product products) ∧
       df_len filtered ≤ df_len df).
Proof.
  intros Hne Hcol. eexists.
  split; [by apply filtered_df_product|].
  split.
  { unfold df_filter. apply map_ext. intros [c cells]. simpl.
    by rewrite mask_select_kept. }
  split.
  { intros c cells Hc. rewrite df_lookup_filter, Hc. simpl.
    by rewrite mask_select_kept. }
  split; [apply df_columns_filter|].
  assert (Hprod : df_lookup "PRODUCT"
                    (df_filter (map (fun cell => series_eq cell product) products) df)
                  = Some (matching product products)).
  { rewrite df_lookup_filter, Hcol. simpl. by rewrite mask_select_filter. }
  split; [exact Hprod|]. split; [apply matching_all|].
  intros Hwf.
  assert (Hwf' := df_filter_wf (map (fun cell => series_eq cell product) products) df Hwf).
  split; [done|].
  assert (Hlen : df_len (df_filter (map (fun cell => series_eq cell product) products) df)
                 = length (matching product products))
    by (symmetry; by apply (df_wf_lookup _ "PRODUCT")).
  split; [done|]. rewrite Hlen, <- (df_wf_lookup df "PRODUCT" products Hwf Hcol).
  unfold matching. apply List.filter_length_le.
Qed.

Lemma filtered_df_rows_witness :
  ∃ filtered,
    filtered_df demo_labeled (PStr "Gadget") = Ret filtered ∧
    filtered = [("PRODUCT", [PStr "Gadget"; PStr "Gadget"]);
                ("Sentiment", [PStr "Neutral"; PStr "Positive"])].
Proof.
  destruct (filtered_df_rows demo_labeled (PStr "Gadget")
              [PStr "Widget"; PStr "Gadget"; PStr "Widget"; PStr "Widget"; PStr "Gadget"])
    as (filtered & Hrun & Hrows & _); [reflexivity | reflexivity |].
  exists filtered. split; [exact Hrun|].
  rewrite Hrows. vm_compute. reflexivity.
Defined.

(** X16.  Filtering is idempotent: applying the same selection to the
    filtered frame changes nothing. *)
Theorem filtered_df_idempotent (df filtered : DataFrame) (product : pyval) :
  df_wf df →
  filtered_df df product = Ret filtered →
  filtered_df filtered product = Ret filtered.
Proof.
  intros Hwf. unfold filtered_df.
  destruct (py_ne_str product "All Products") eqn:Hne; [|by intros [= <-]].
  unfold df_getitem, mbind, result_bind.
  destruct (df_lookup "PRODUCT" df) as [products|] eqn:Hcol; [|done].
  intros [= <-].
  set (mask := map (fun cell => series_eq cell product) products).
  rewrite df_lookup_filter, Hcol. simpl. f_equal.
  unfold mask at 1. rewrite mask_select_filter.
  fold (matching product products).
  assert (Hmask' : Forall (fun b => b = true)
                     (map (fun cell => series_eq cell product) (matching product products)))
    by (apply Forall_map, matching_all).
  assert (Hlen : ∀ col, col ∈ df_filter mask df →
            length (snd col) = length (matching product products)).
  { intros col Hcol'. unfold df_filter in Hcol'.
    apply list_elem_of_fmap in Hcol' as ([c cells] & -> & Hin). simpl.
    unfold matching. rewrite <- (mask_select_filter _ products). fold mask.
    apply mask_select_length.
    apply (df_wf_lookup df "PRODUCT" products Hwf) in Hcol as Hrows.
    unfold df_wf in Hwf. rewrite Forall_forall in Hwf.
    specialize (Hwf _ Hin). simpl in Hwf. lia. }
  unfold df_filter at 1.
  rewrite <- (map_id (df_filter mask df)) at 2.
  apply map_ext_in. intros [c cells] Hin. apply list_elem_of_In in Hin.
  specialize (Hlen _ Hin). simpl in Hlen.
  simpl. f_equal. apply mask_select_all; [done|].
  rewrite length_map. lia.
Qed.

Lemma filtered_df_idempotent_witness :
  ∃ filtered,
    filtered_df demo_labeled (PStr "Gadget") = Ret filtered ∧
    filtered_df filtered (PStr "Gadget") = Ret filtered.
Proof.
  exists [("PRODUCT", [PStr "Gadget"; PStr "Gadget"]);
          ("Sentiment", [PStr "Neutral"; PStr "Positive"])].
  split; [reflexivity|].
  apply (filtered_df_idempotent demo_labeled); [repeat constructor | reflexivity].
Defined.

(** ** The table and the chart *)

Lemma filtered_df_total (df : DataFrame) (product : pyval) (products : list pyval) :
  df_lookup "PRODUCT" df = Some products →
  ∃ filtered,
    filtered_df df product = Ret filtered ∧
    df_columns filtered = df_columns df ∧
    ∀ c, is_Some (df_lookup c df) → is_Some (df_lookup c filtered).
Proof.
  intros Hcol. unfold filtered_df, df_getitem, mbind, result_bind. rewrite Hcol.
  destruct (py_ne_str product "All Products"); eexists; (split; [reflexivity|]).
  - split; [apply df_columns_filter|].
    intros c [cells Hc]. rewrite df_lookup_filter, Hc. by eexists.
  - done.
Qed.

Lemma chart_total (filtered : DataFrame) (cells : list pyval) :
  df_lookup "Sentiment" filtered = Some cells →
  ∃ bars colors,
    sentiment_counts filtered = Ret bars ∧ chart_colors filtered = Ret colors.
Proof.
  intros Hcol.
  unfold sentiment_counts, chart_colors, df_getitem, mbind, result_bind.
  rewrite Hcol, filtered_order_present_any.
  destruct (filtered_colors_spec (present_labels cells)) as (colors & Hrun & _).
  { apply Forall_forall. intros s Hs. by apply present_labels_sub in Hs as [? _]. }
  by eexists _, colors.
Qed.

Lemma display_no_df (selectbox : list pyval -> pyval) (w : world) :
  session_state w !! "df" = None → display selectbox w = (Ret tt, w).
Proof.
  intros Hdf. unfold display, mbind, M_bind, in_session. by rewrite Hdf.
Qed.

Lemma display_no_product (selectbox : list pyval -> pyval) (w : world) (df : DataFrame) :
  session_state w !! "df" = Some df →
  df_lookup "PRODUCT" df = None →
  display selectbox w =
    (Raise (KeyError "PRODUCT"),
     World (session_state w) (screen w ++ [st_subheader "🔍 Filter by Product"])
           (cache w) (scored w)).
Proof.
  intros Hdf Hcol.
  unfold display, mbind, M_bind, in_session, render, get_session, lift, df_getitem.
  rewrite Hdf. cbn. by rewrite Hdf, Hcol.
Qed.

Lemma display_ok (selectbox : list pyval -> pyval) (w : world) (df : DataFrame)
    (products : list pyval) :
  session_state w !! "df" = Some df →
  df_lookup "PRODUCT" df = Some products →
  ∃ filtered chart,
    filtered_df df (selectbox (PStr "All Products" :: uniques products)) = Ret filtered ∧
    display selectbox w =
      (Ret tt,
       World (session_state w)
             (screen w ++
                [st_subheader "🔍 Filter by Product";
                 st_subheader_f "📁 Reviews for "
                   (selectbox (PStr "All Products" :: uniques products));
                 st_dataframe filtered] ++ chart)
             (cache w) (scored w)) ∧
    (df_lookup "Sentiment" df = None → chart = []) ∧
    (is_Some (df_lookup "Sentiment" df) →
       ∃ bars colors,
         sentiment_counts filtered = Ret bars ∧
         chart_colors filtered = Ret colors ∧
         chart = [st_subheader_f "📊 Sentiment Breakdown for "
                    (selectbox (PStr "All Products" :: uniques products));
                  st_plotly_chart bars colors]).
Proof.
  intros Hdf Hcol.
  set (product := selectbox (PStr "All Products" :: uniques products)).
  destruct (filtered_df_total df product products Hcol) as (filtered & Hf & _ & Hcols).
  unfold display, mbind, M_bind, in_session, render, get_session, lift, df_getitem,
    df_has_column.
  rewrite Hdf. cbn. rewrite Hdf, Hcol. cbn. fold product. rewrite Hf. cbn.
  destruct (df_lookup "Sentiment" df) as [labels|] eqn:Hsent.
  - destruct (Hcols "Sentiment") as [cells Hcells]; [by rewrite Hsent|].
    destruct (chart_total filtered cells Hcells) as (bars & colors & Hbars & Hcolors).
    rewrite Hbars, Hcolors. cbn.
    exists filtered, [st_subheader_f "📊 Sentiment Breakdown for " product;
                      st_plotly_chart bars colors].
    split; [done|]. split.
    { by rewrite <- !app_assoc. }
    split; [done|]. intros _. by exists bars, colors.
  - exists filtered, []. split; [done|]. split.
    { by rewrite <- !app_assoc. }
    split; [done|]. by intros [? ?].
Qed.


Lemma display_outcome (selectbox : list pyval -> pyval) (w : world) :
  session_state (display selectbox w).2 = session_state w ∧
  ((display selectbox w).1 = Ret tt ∨
   (display selectbox w).1 = Raise (KeyError "PRODUCT")) ∧
  ((display selectbox w).1 = Raise (KeyError "PRODUCT") ↔
   ∃ df, session_state w !! "df" = Some df ∧ df_lookup "PRODUCT" df = None).
Proof.
  split; [apply display_preserves|].
  destruct (session_state w !! "df") as [df|] eqn:Hdf.
  - destruct (df_lookup "PRODUCT" df) as [products|] eqn:Hcol.
    + destruct (display_ok selectbox w df products Hdf Hcol)
        as (filtered & chart & _ & -> & _).
      split; [by left|]. split; [done|]. intros (df' & [= <-] & Hnone). congruence.
    + rewrite (display_no_product selectbox w df Hdf Hcol).
      split; [by right|]. split; [|done]. intros _. by exists df.
  - rewrite (display_no_df selectbox w Hdf).
    split; [by left|]. split; [done|]. by intros (df' & [=] & _).
Qed.

(** A run of the script is the two lines of the header, the handler of the
    clicked button, which returns, and the display. *)
Lemma app_display (analyzer : pyval -> result (gmap string spec_float))
    (setitem_check : list pyval -> list pyval -> option exn)
    (current_dir : string) (files : gmap string string)
    (parse_csv : string -> result DataFrame) (selectbox : list pyval -> pyval)
    (c : click) (w : world) :
  ∃ w2,
    app analyzer setitem_check current_dir files parse_csv selectbox c w = display selectbox w2 ∧
    (c = NoClick →
       w2 = World (session_state w)
                  (screen w ++ [st_title "🔍 Local Sentiment Analysis Dashboard";
                                st_write "This is your *local model* powered sentiment analysis app using VADER."])
                  (cache w) (scored w)) ∧
    (c = LoadDataset →
       w2 = (load_dataset current_dir files parse_csv
               (World (session_state w)
                  (screen w ++ [st_title "🔍 Local Sentiment Analysis Dashboard";
                                st_write "This is your *local model* powered sentiment analysis app using VADER."])
                  (cache w) (scored w))).2) ∧
    (c = AnalyzeSentiment →
       w2 = (analyze_sentiment analyzer setitem_check
               (World (session_state w)
                  (screen w ++ [st_title "🔍 Local Sentiment Analysis Dashboard";
                                st_write "This is your *local model* powered sentiment analysis app using VADER."])
                  (cache w) (scored w))).2).
Proof.
  unfold app, mbind, M_bind at 1 2, render.
  cbn [fst snd session_state screen cache scored].
  rewrite <- app_assoc. cbn [app].
  set (w0 := World _ _ _ _).
  destruct c.
  - exists w0. by unfold mbind, M_bind, ret.
  - destruct (load_dataset_cases current_dir files parse_csv w0) as (e & ss & Hrun & _).
    exists (load_dataset current_dir files parse_csv w0).2.
    unfold mbind, M_bind, ret. rewrite Hrun. by cbn.
  - destruct (analyze_sentiment_total analyzer setitem_check w0) as (w' & Hrun & _).
    exists (analyze_sentiment analyzer setitem_check w0).2.
    unfold mbind, M_bind, ret. rewrite Hrun. by cbn.
Qed.

(** X17.  With a dataset that has a PRODUCT column the display never raises.
    It renders the filter header, the header naming the selection (made among
    "All Products" and the distinct products), the filtered table and, exactly
    when the stored dataset has a Sentiment column, the breakdown header and
    the chart of the filtered rows. *)
Theorem display_with_dataset (selectbox : list pyval -> pyval) (w : world)
    (df : DataFrame) (products : list pyval) :
  session_state w !! "df" = Some df →
  df_lookup "PRODUCT" df = Some products →
  ∃ filtered chart,
    filtered_df df (selectbox (PStr "All Products" :: uniques products)) = Ret filtered ∧
    (display selectbox w).1 = Ret tt ∧
    rendered_by (display selectbox) w =
      [st_subheader "🔍 Filter by Product";
       st_subheader_f "📁 Reviews for " (selectbox (PStr "All Products" :: uniques products));
       st_dataframe filtered] ++ chart ∧
    (df_lookup "Sentiment" df = None → chart = []) ∧
    (is_Some (df_lookup "Sentiment" df) →
       ∃ bars colors,
         sentiment_counts filtered = Ret bars ∧
         chart_colors filtered = Ret colors ∧
         chart = [st_subheader_f "📊 Sentiment Breakdown for "
                    (selectbox (PStr "All Products" :: uniques products));
                  st_plotly_chart bars colors]).
Proof.
  intros Hdf Hcol.
  destruct (display_ok selectbox w df products Hdf Hcol)
    as (filtered & chart & Hf & Hrun & Hnone & Hsome).
  exists filtered, chart. unfold rendered_by. rewrite Hrun. cbn [fst snd screen].
  rewrite drop_app_length. by repeat apply conj.
Qed.

Lemma display_with_dataset_witness :
  rendered_by (display demo_selectbox) (World (<["df" := demo_labeled]> ∅) [] [] []) =
    [st_subheader "🔍 Filter by Product";
     st_subheader_f "📁 Reviews for " (PStr "All Products");
     st_dataframe demo_labeled;
     st_subheader_f "📊 Sentiment Breakdown for " (PStr "All Products");
     st_plotly_chart [(Some "Neutral", 2); (Some "Positive", 3)]
                     [("Neutral", "lightgray"); ("Positive", "green")]].
Proof.
  destruct (display_with_dataset demo_selectbox
              (World (<["df" := demo_labeled]> ∅) [] [] []) demo_labeled
              [PStr "Widget"; PStr "Gadget"; PStr "Widget"; PStr "Widget"; PStr "Gadget"])
    as (filtered & chart & Hf & _ & Hshown & _ & Hchart); [reflexivity | reflexivity |].
  rewrite Hshown.
  vm_compute in Hf. injection Hf as <-.
  destruct Hchart as (bars & colors & Hbars & Hcolors & ->); [by eexists|].
  vm_compute in Hbars. injection Hbars as <-.
  vm_compute in Hcolors. injection Hcolors as <-.
  reflexivity.
Defined.

(** X18.  A CSV without a PRODUCT column is loaded and reported as a success,
    and the same run then stops with an uncaught KeyError 'PRODUCT' right
    after the filter header: no table is shown. *)
Theorem app_load_without_product
    (analyzer : pyval -> result (gmap string spec_float))
    (setitem_check : list pyval -> list pyval -> option exn)
    (current_dir : string) (files : gmap string string)
    (parse_csv : string -> result DataFrame) (selectbox : list pyval -> pyval)
    (w : world) (contents : string) (df : DataFrame) :
  files !! get_dataset_path current_dir = Some contents →
  parse_csv contents = Ret df →
  df_lookup "PRODUCT" df = None →
  app analyzer setitem_check current_dir files parse_csv selectbox LoadDataset w =
    (Raise (KeyError "PRODUCT"),
     World (<["df" := df_head 10 df]> (session_state w))
           (screen w ++
              [st_title "🔍 Local Sentiment Analysis Dashboard";
               st_write "This is your *local model* powered sentiment analysis app using VADER.";
               st_success "✅ Dataset loaded successfully!";
               st_subheader "🔍 Filter by Product"])
           (cache w) (scored w)).
Proof.
  intros Hfile Hparse Hcol.
  destruct (app_display analyzer setitem_check current_dir files parse_csv selectbox LoadDataset w)
    as (w2 & -> & _ & Hw2 & _).
  rewrite (Hw2 eq_refl), (load_dataset_ok current_dir files parse_csv _ contents df)
    by done.
  cbn [snd].
  rewrite (display_no_product selectbox _ (df_head 10 df)).
  - cbn [session_state screen cache scored]. by rewrite <- !app_assoc.
  - cbn [session_state]. apply lookup_insert_eq.
  - by rewrite df_lookup_head, Hcol.
Qed.

Lemma app_load_without_product_witness :
  (app demo_analyzer demo_setitem_check "/srv/app"
     (<["/srv/app/customer_reviews.csv" := "SUMMARY"]> ∅)
     (fun _ => Ret [("SUMMARY", [PStr "great product"])])
     demo_selectbox LoadDataset demo_world).1
  = Raise (KeyError "PRODUCT").
Proof.
  rewrite (app_load_without_product demo_analyzer demo_setitem_check "/srv/app"
             (<["/srv/app/customer_reviews.csv" := "SUMMARY"]> ∅)
             (fun _ => Ret [("SUMMARY", [PStr "great product"])])
             demo_selectbox demo_world "SUMMARY"
             [("SUMMARY", [PStr "great product"])]);
    reflexivity.
Defined.

(** X19.  A run of the script either completes or stops with KeyError
    'PRODUCT', whatever was clicked, selected or read; and it stops exactly
    when the dataset held by the session at the end of the run has no PRODUCT
    column.  No other exception escapes. *)
Theorem app_outcome
    (analyzer : pyval -> result (gmap string spec_float))
    (setitem_check : list pyval -> list pyval -> option exn)
    (current_dir : string) (files : gmap string string)
    (parse_csv : string -> result DataFrame) (selectbox : list pyval -> pyval)
    (c : click) (w : world) :
  ((app analyzer setitem_check current_dir files parse_csv selectbox c w).1 = Ret tt ∨
   (app analyzer setitem_check current_dir files parse_csv selectbox c w).1
     = Raise (KeyError "PRODUCT")) ∧
  ((app analyzer setitem_check current_dir files parse_csv selectbox c w).1
     = Raise (KeyError "PRODUCT") ↔
   ∃ df,
     session_state (app analyzer setitem_check current_dir files parse_csv selectbox c w).2 !! "df"
       = Some df ∧
     df_lookup "PRODUCT" df = None).
Proof.
  destruct (app_display analyzer setitem_check current_dir files parse_csv selectbox c w)
    as (w2 & -> & _).
  destruct (display_outcome selectbox w2) as (Hss & Hcases & Hiff).
  split; [exact Hcases|]. by rewrite Hss.
Qed.

(** X20.  A run without a click (the page is opened again, or the dropdown is
    changed) only renders: the session state, the store of the classifier
    and the trace of scorer calls are what they were, and what was on the
    screen stays in front of the header. *)
Theorem app_rerun_read_only
    (analyzer : pyval -> result (gmap string spec_float))
    (setitem_check : list pyval -> list pyval -> option exn)
    (current_dir : string) (files : gmap string string)
    (parse_csv : string -> result DataFrame) (selectbox : list pyval -> pyval)
    (w : world) :
  session_state (app analyzer setitem_check current_dir files parse_csv selectbox NoClick w).2
    = session_state w ∧
  cache (app analyzer setitem_check current_dir files parse_csv selectbox NoClick w).2 = cache w ∧
  scored (app analyzer setitem_check current_dir files parse_csv selectbox NoClick w).2 = scored w.
Proof.
  destruct (app_display analyzer setitem_check current_dir files parse_csv selectbox NoClick w)
    as (w2 & -> & Hw2 & _).
  rewrite (Hw2 eq_refl).
  destruct (display_preserves selectbox
              (World (session_state w)
                 (screen w ++ [st_title "🔍 Local Sentiment Analysis Dashboard";
                               st_write "This is your *local model* powered sentiment analysis app using VADER."])
                 (cache w) (scored w))) as (Hss & Hc & Hs).
  by rewrite Hss, Hc, Hs.
Qed.

(** X21.  Before any dataset is loaded the page is the title and the
    introduction, nothing else; a click on Analyze Sentiment adds the warning
    and changes nothing. *)
Theorem app_without_dataset
    (analyzer : pyval -> result (gmap string spec_float))
    (setitem_check : list pyval -> list pyval -> option exn)
    (current_dir : string) (files : gmap string string)
    (parse_csv : string -> result DataFrame) (selectbox : list pyval -> pyval)
    (w : world) :
  session_state w !! "df" = None →
  app analyzer setitem_check current_dir files parse_csv selectbox NoClick w =
    (Ret tt,
     World (session_state w)
           (screen w ++
              [st_title "🔍 Local Sentiment Analysis Dashboard";
               st_write "This is your *local model* powered sentiment analysis app using VADER."])
           (cache w) (scored w)) ∧
  app analyzer setitem_check current_dir files parse_csv selectbox AnalyzeSentiment w =
    (Ret tt,
     World (session_state w)
           (screen w ++
              [st_title "🔍 Local Sentiment Analysis Dashboard";
               st_write "This is your *local model* powered sentiment analysis app using VADER.";
               st_warning "⚠️ Please load the dataset first."])
           (cache w) (scored w)).
Proof.
  intros Hdf. split.
  - destruct (app_display analyzer setitem_check current_dir files parse_csv selectbox NoClick w)
      as (w2 & -> & Hw2 & _).
    rewrite (Hw2 eq_refl). by apply display_no_df.
  - destruct (app_display analyzer setitem_check current_dir files parse_csv selectbox
                AnalyzeSentiment w) as (w2 & -> & _ & _ & Hw2).
    rewrite (Hw2 eq_refl), analyze_sentiment_no_df by done.
    cbn [snd]. rewrite display_no_df by done.
    cbn [session_state screen cache scored]. by rewrite <- app_assoc.
Qed.

Lemma app_without_dataset_witness :
  screen (app demo_analyzer demo_setitem_check "/srv/app" demo_files demo_parse demo_selectbox
            AnalyzeSentiment demo_world).2
  = [st_title "🔍 Local Sentiment Analysis Dashboard";
     st_write "This is your *local model* powered sentiment analysis app using VADER.";
     st_warning "⚠️ Please load the dataset first."].
Proof.
  destruct (app_without_dataset demo_analyzer demo_setitem_check "/srv/app" demo_files demo_parse
              demo_selectbox demo_world) as [_ ->]; reflexivity.
Defined.


(** ** Loading, then analysing *)

Lemma scored_after (analyzer : pyval -> result (gmap string spec_float))
    (text : pyval) (w : world) :
  ∃ new, scored (world_after analyzer text w) = scored w ++ new ∧
         (new = [] ∨ new = [text]).
Proof.
  unfold world_after, invoked_on.
  destruct (cache_lookup text (cache w)); cbn [scored].
  - exists []. by rewrite app_nil_r; auto.
  - destruct (py_not text || pd_isna text); eexists; eauto.
Qed.

Lemma scored_after_all (analyzer : pyval -> result (gmap string spec_float))
    (cells : list pyval) (w : world) :
  ∃ new, scored (world_after_all analyzer cells w) = scored w ++ new ∧
         length new ≤ length cells ∧
         (∀ x, x ∈ new → x ∈ cells).
Proof.
  revert w. induction cells as [|text cells IH]; intros w.
  - exists []. simpl. rewrite app_nil_r. repeat split; [lia|done].
  - simpl. destruct (IH (world_after analyzer text w)) as (new & -> & Hlen & Hsub).
    destruct (scored_after analyzer text w) as (new0 & -> & Hnew0).
    exists (new0 ++ new). rewrite app_assoc. split; [done|].
    rewrite length_app. split.
    + simpl. destruct Hnew0 as [-> | ->]; simpl; lia.
    + intros x Hx. apply elem_of_app in Hx as [Hx|Hx].
      * destruct Hnew0 as [-> | ->]; [by apply elem_of_nil in Hx|].
        apply list_elem_of_singleton in Hx as ->. by left.
      * right. by apply Hsub.
Qed.

(** X22.  Load Dataset followed by Analyze Sentiment labels the preview
    only.  When the file has no Sentiment column, or has one for which pandas
    accepts the labels, the stored table is the first ten rows with the
    labels of their summaries; and in any case the analyzer is called on at
    most ten texts, each one of the first ten summaries, whatever the size
    of the file. *)
Theorem analyze_after_load
    (analyzer : pyval -> result (gmap string spec_float))
    (setitem_check : list pyval -> list pyval -> option exn)
    (current_dir : string) (files : gmap string string)
    (parse_csv : string -> result DataFrame)
    (w : world) (contents : string) (df : DataFrame) (summary : list pyval) :
  cache_ok analyzer (cache w) →
  files !! get_dataset_path current_dir = Some contents →
  parse_csv contents = Ret df →
  df_lookup "SUMMARY" df = Some summary →
  ∃ new,
    ((∀ old, df_lookup "Sentiment" df = Some old →
             setitem_check (take 10 old) (labels_of analyzer (take 10 summary)) = None) →
     session_state
       (analyze_sentiment analyzer setitem_check
          (load_dataset current_dir files parse_csv w).2).2 !! "df"
     = Some (df_setitem (df_head 10 df) "Sentiment"
               (labels_of analyzer (take 10 summary)))) ∧
    scored (analyze_sentiment analyzer setitem_check
              (load_dataset current_dir files parse_csv w).2).2
    = scored w ++ new ∧
    length new ≤ 10 ∧
    (∀ x, x ∈ new → x ∈ take 10 summary).
Proof.
  intros Hok Hfile Hparse Hsum.
  rewrite (load_dataset_ok current_dir files parse_csv w contents df Hfile Hparse).
  cbn [snd].
  set (w1 := World (<["df" := df_head 10 df]> (session_state w))
                   (screen w ++ [st_success "✅ Dataset loaded successfully!"])
                   (cache w) (scored w)).
  assert (Hdf1 : session_state w1 !! "df" = Some (df_head 10 df))
    by apply lookup_insert_eq.
  assert (Hsum1 : df_lookup "SUMMARY" (df_head 10 df) = Some (take 10 summary))
    by (by rewrite df_lookup_head, Hsum).
  destruct (scored_after_all analyzer (take 10 summary) w1)
    as (new & Hnew & Hlen & Hsub).
  exists new. split; [|split; [|split; [|exact Hsub]]].
  - intros Hacc.
    rewrite (analyze_sentiment_spec analyzer setitem_check w1 (df_head 10 df)
               (take 10 summary) Hok Hdf1 Hsum1).
    + apply lookup_insert_eq.
    + intros old Hold. rewrite df_lookup_head in Hold.
      destruct (df_lookup "Sentiment" df) as [old'|] eqn:Hold'; [|done].
      injection Hold as <-. by apply Hacc.
  - rewrite (analyze_sentiment_run analyzer setitem_check w1 (df_head 10 df)
               (take 10 summary) Hok Hdf1 Hsum1).
    by destruct (df_loc_setitem setitem_check (df_head 10 df) "Sentiment"
                   (labels_of analyzer (take 10 summary))).
  - rewrite length_take in Hlen. lia.
Qed.

Lemma analyze_after_load_witness :
  session_state
    (analyze_sentiment demo_analyzer demo_setitem_check
       (load_dataset "/srv/app" demo_long_files demo_long_parse demo_loaded_world).2).2
    !! "df"
  = Some
      [("PRODUCT", [PStr "Widget"; PStr "Gadget"; PStr "Widget"; PStr "Gizmo";
                    PStr "Gadget"; PStr "Widget"; PStr "Gizmo"; PStr "Gadget";
                    PStr "Widget"; PStr "Gizmo"]);
       ("SUMMARY", [PStr "great product"; PStr "terrible experience"; PStr "it's fine";
                    PStr "great product"; PStr "slightly good"; PStr "on the line";
                    PStr "under the line"; PStr "nothing special"; PStr "as described";
                    PStr "tenth review"]);
       ("Sentiment", [PStr "Positive"; PStr "Negative"; PStr "Neutral";
                      PStr "Positive"; PStr "Neutral"; PStr "Positive";
                      PStr "Negative"; PStr "Neutral"; PStr "Neutral";
                      PStr "Neutral"])] ∧
  scored
    (analyze_sentiment demo_analyzer demo_setitem_check
       (load_dataset "/srv/app" demo_long_files demo_long_parse demo_loaded_world).2).2
  = [PStr "great product"; PStr "terrible experience"; PStr "it's fine";
     PStr "slightly good"; PStr "on the line"; PStr "under the line";
     PStr "nothing special"; PStr "as described"; PStr "tenth review"].
Proof.
  destruct (analyze_after_load demo_analyzer demo_setitem_check "/srv/app"
              demo_long_files demo_long_parse demo_loaded_world "twelve reviews"
              demo_long_df
              [PStr "great product"; PStr "terrible experience"; PStr "it's fine";
               PStr "great product"; PStr "slightly good"; PStr "on the line";
               PStr "under the line"; PStr "nothing special"; PStr "as described";
               PStr "tenth review"; PStr "eleventh review"; PStr "twelfth review"])
    as (new & Hdf & _); [apply cache_ok_nil | reflexivity | reflexivity | reflexivity |].
  split.
  - refine (eq_trans (Hdf _) _); [|vm_compute; reflexivity].
    intros old Hold. vm_compute in Hold. discriminate Hold.
  - vm_compute. reflexivity.
Defined.

(** ** The options of the dropdown *)

Lemma series_eq_refl (p : pyval) : pd_isna p = false → series_eq p p = true.
Proof.
  destruct p as [|s|f]; simpl; [done|intros _; apply String.eqb_refl|].
  intros Hf. unfold SFeqb. rewrite SFcompare_refl; [done|].
  intros ->. discriminate Hf.
Qed.

Lemma series_eq_na (cell p : pyval) : pd_isna p = true → series_eq cell p = false.
Proof.
  destruct p as [|s|f]; simpl; [by destruct cell|done|].
  intros Hf. destruct cell as [|t|g]; [done|done|].
  destruct f as [[]|[]| |[] m e]; try discriminate Hf.
  unfold SFeqb. by destruct g as [[]|[]| |[] m e].
Qed.

Lemma matching_na (p : pyval) (products : list pyval) :
  pd_isna p = true → matching p products = [].
Proof.
  intros Hna. unfold matching.
  induction products as [|cell products IH]; [done|].
  simpl. by rewrite (series_eq_na cell p Hna).
Qed.

(** X23.  Every product the dropdown offers is a cell of the PRODUCT
    column, and selecting one that is not missing shows at least one row.
    The option that stands for the missing cells (None or NaN) is offered
    too, and selecting it shows no row, since a missing value equals
    nothing. *)
Theorem offered_product_rows (products : list pyval) (p : pyval) :
  p ∈ uniques products →
  p ∈ products ∧
  (pd_isna p = false → p ∈ matching p products) ∧
  (pd_isna p = true → matching p products = []).
Proof.
  intros Hp. apply uniques_sub in Hp. split; [done|]. split.
  - intros Hna. unfold matching. apply list_elem_of_In, filter_In.
    split; [by apply list_elem_of_In|by apply series_eq_refl].
  - intros Hna. by apply matching_na.
Qed.

Lemma offered_product_rows_witness :
  NaN ∈ uniques [PStr "Widget"; PStr "Gadget"; PStr "Widget"; NaN] ∧
  matching NaN [PStr "Widget"; PStr "Gadget"; PStr "Widget"; NaN] = [] ∧
  PStr "Widget" ∈ matching (PStr "Widget") [PStr "Widget"; PStr "Gadget"; PStr "Widget"; NaN].
Proof.
  assert (Hnan : NaN ∈ uniques [PStr "Widget"; PStr "Gadget"; PStr "Widget"; NaN])
    by (apply (bool_decide_unpack _); vm_compute; reflexivity).
  assert (Hwidget : PStr "Widget" ∈ uniques [PStr "Widget"; PStr "Gadget"; PStr "Widget"; NaN])
    by (apply (bool_decide_unpack _); vm_compute; reflexivity).
  split; [exact Hnan|]. split.
  - apply (offered_product_rows _ NaN Hnan). reflexivity.
  - apply (offered_product_rows _ (PStr "Widget") Hwidget). reflexivity.
Defined.

(** ** An assignment that pandas refuses *)

(** X24.  When the dataset already has a Sentiment column for which pandas
    refuses the labels (from pandas 3.0 on: strings assigned to a column of
    numbers), the analysis shows the error with the text of the exception,
    the last thing rendered, and leaves the dataset as it was; the summaries
    have been classified by then, so the scorer was called and its answers
    are in the store. *)
Theorem analyze_sentiment_refused_assignment
    (analyzer : pyval -> result (gmap string spec_float))
    (setitem_check : list pyval -> list pyval -> option exn)
    (w : world) (df : DataFrame) (summary old : list pyval) (e : exn) :
  cache_ok analyzer (cache w) →
  session_state w !! "df" = Some df →
  df_lookup "SUMMARY" df = Some summary →
  df_lookup "Sentiment" df = Some old →
  setitem_check old (labels_of analyzer summary) = Some e →
  ∃ w',
    analyze_sentiment analyzer setitem_check w = (Ret tt, w') ∧
    session_state w' = session_state w ∧
    last (screen w') =
      Some (st_error ("❌ Error during sentiment analysis: " +:+ exn_str e)) ∧
    cache w' = cache (series_apply (get_sentiment analyzer) summary w).2 ∧
    scored w' = scored (series_apply (get_sentiment analyzer) summary w).2.
Proof.
  intros Hok Hdf Hsum Hold Hcheck. eexists.
  rewrite (analyze_sentiment_refused analyzer setitem_check w df summary old e)
    by done.
  rewrite (series_apply_spec analyzer summary w Hok).
  split; [reflexivity|]. cbn [session_state screen cache scored snd].
  split; [reflexivity|]. split; [apply last_snoc|]. by split.
Qed.

Lemma analyze_sentiment_refused_assignment_witness :
  ∃ w',
    analyze_sentiment demo_analyzer demo_setitem_check demo_rated_world = (Ret tt, w') ∧
    session_state w' !! "df" = Some demo_rated_df ∧
    screen w' =
      [st_error "❌ Error during sentiment analysis: Invalid value for dtype 'float64'"] ∧
    scored w' = [PStr "great product"; PStr "terrible experience"].
Proof.
  destruct (analyze_sentiment_refused_assignment demo_analyzer demo_setitem_check
              demo_rated_world demo_rated_df
              [PStr "great product"; PStr "terrible experience"]
              [PFloat f_0_05; PFloat f_0]
              (OtherError "TypeError" "Invalid value for dtype 'float64'"))
    as (w' & Hrun & Hss & _ & _ & Hscored);
    [apply cache_ok_nil | reflexivity | reflexivity | reflexivity
     | vm_compute; reflexivity |].
  exists w'. split; [exact Hrun|]. split; [by rewrite Hss|].
  split.
  - pose proof Hrun as Hrun'. vm_compute in Hrun'. by injection Hrun' as <-.
  - rewrite Hscored. vm_compute. reflexivity.
Defined.
